(** * Atendens: attendance bookkeeping over a CSV file

    A shallow embedding of [Atendens.py].  The program keeps every
    attendance record in one CSV file and goes through pandas for each
    operation: [load_data] reads the whole file into a DataFrame, the
    operation works on the DataFrame, [save_data] writes it back.

    What is modelled of pandas:
    - a DataFrame cell is either missing ([NaN]) or a piece of text;
    - [read_csv] turns an empty field, and every other default
      missing-value token ([na_values]), into [NaN];
    - [to_csv] writes [NaN] as the empty field;
    - [==] against a string is false on [NaN]; [drop_duplicates] and
      [unique] treat two [NaN] as the same value; [groupby] drops the
      rows whose key is [NaN];
    - [concat] aligns the frames by column name and fills with [NaN].

    The column ["Attendance %"] is computed in binary64 ([Binary64]).

    What is not modelled: the reader's conversion of a column made only
    of numeric or boolean literals to numbers or booleans, its renaming
    of repeated column names, what it makes of a line with more fields
    than the header, and the quoting of the CSV text (a file is the
    table of its fields).  The predicate [textual] delimits the strings
    the reader is sure to return unchanged, [text_store] and
    [text_table] the files in which every field is one or a missing
    value and every line fits the header: on these the embedding does
    what pandas does.  Strings are sequences of characters below 256. *)

From Stdlib Require Import List String Ascii Bool Arith ZArith QArith Lia Lqa.
From Stdlib Require Import Permutation Sorted.
Import ListNotations.
Local Open Scope string_scope.
Local Open Scope list_scope.
Local Open Scope nat_scope.

(* ================================================================== *)
(** * Text                                                              *)
(* ================================================================== *)

Module Text.

(** [str.isspace] on the characters below 256. *)
Definition isspace (c : ascii) : bool :=
  let n := nat_of_ascii c in
  ((9 <=? n) && (n <=? 13)) || ((28 <=? n) && (n <=? 32))
  || (n =? 133) || (n =? 160).

Fixpoint skip (p : ascii -> bool) (l : list ascii) : list ascii :=
  match l with
  | c :: t => if p c then skip p t else l
  | [] => []
  end.

Definition lstrip (l : list ascii) : list ascii := skip isspace l.
Definition rstrip (l : list ascii) : list ascii := rev (lstrip (rev l)).

(** [s.strip()] *)
Definition strip (s : string) : string :=
  string_of_list_ascii (rstrip (lstrip (list_ascii_of_string s))).

(** [s.strip() != ""] *)
Definition nonblank (s : string) : bool := negb (strip s =? "")%string.

(** Nothing but white space (the empty string included). *)
Definition blank (s : string) : bool := forallb isspace (list_ascii_of_string s).

(** ** What [read_csv] does not return as text *)

(** The default missing-value tokens of [read_csv]. *)
Definition na_values : list string :=
  [ ""; "#N/A"; "#N/A N/A"; "#NA"; "-1.#IND"; "-1.#QNAN"; "-NaN"; "-nan";
    "1.#IND"; "1.#QNAN"; "<NA>"; "N/A"; "NA"; "NULL"; "NaN"; "None";
    "n/a"; "nan"; "null" ].

Definition isna (s : string) : bool := existsb (String.eqb s) na_values.

Definition is_digit (c : ascii) : bool :=
  let n := nat_of_ascii c in (48 <=? n) && (n <=? 57).
Definition is_sign (c : ascii) : bool := ((c =? "+") || (c =? "-"))%char.
Definition is_exp (c : ascii) : bool := ((c =? "e") || (c =? "E"))%char.
Definition is_mantissa (c : ascii) : bool := is_digit c || (c =? ".")%char.

Definition skip_sign (l : list ascii) : list ascii :=
  match l with
  | c :: t => if is_sign c then t else l
  | [] => []
  end.

(** Spaces, a sign, digits and dots, an exponent, spaces: every decimal
    literal has this shape (and so have some strings that are none). *)
Definition number_shape (s : string) : bool :=
  let l := skip is_mantissa (skip_sign (lstrip (list_ascii_of_string s))) in
  let l := match l with
           | c :: t => if is_exp c then skip is_digit (skip_sign t) else l
           | [] => []
           end in
  match lstrip l with [] => true | _ :: _ => false end.

Definition lower (c : ascii) : ascii :=
  let n := nat_of_ascii c in
  if (65 <=? n) && (n <=? 90) then ascii_of_nat (n + 32) else c.

(** The words the reader takes for a boolean or a float, in any case
    and with a sign or spaces around. *)
Definition literal_words : list string :=
  [ "true"; "false"; "inf"; "infinity"; "nan" ].

Definition word_shape (s : string) : bool :=
  let l := rstrip (skip_sign (lstrip (list_ascii_of_string s))) in
  existsb (String.eqb (string_of_list_ascii (map lower l))) literal_words.

(** A string that [read_csv] returns as it is, whatever the rest of
    its column holds. *)
Definition textual (s : string) : bool :=
  negb (isna s) && negb (number_shape s) && negb (word_shape s).

End Text.

(* ================================================================== *)
(** * Cells, rows and frames                                            *)
(* ================================================================== *)

Definition CSV_FIELDS : list string := [ "Student Name"; "Date"; "Time"; "Status" ].

(** A DataFrame cell. *)
Inductive cell : Type :=
| NaN
| Str (s : string).

(** One record: the four fields of [CSV_FIELDS], then the cells of the
    columns the table has besides them. *)
Record row (A : Type) : Type := Row {
  Student_Name : A;
  Date : A;
  Time : A;
  Status : A;
  others : list A
}.
Arguments Row {A}.
Arguments Student_Name {A}.
Arguments Date {A}.
Arguments Time {A}.
Arguments Status {A}.
Arguments others {A}.

(** A table whose columns are [CSV_FIELDS ++ extra_columns].  Every file
    of the store has this shape: [load_data] creates it with the four
    columns, and [concat] keeps the columns of the stored frame in front
    of those it adds. *)
Record sheet (A : Type) : Type := Sheet {
  extra_columns : list string;
  rows : list (row A)
}.
Arguments Sheet {A}.
Arguments extra_columns {A}.
Arguments rows {A}.

(** The backing file holds text, a DataFrame holds cells. *)
Definition file : Type := sheet string.
Definition frame : Type := sheet cell.

(** The backing file may not exist yet. *)
Definition store : Type := option file.

Definition cell_eq_dec (a b : cell) : {a = b} + {a <> b}.
Proof. decide equality. apply string_dec. Defined.

Definition row_eq_dec (a b : row cell) : {a = b} + {a <> b}.
Proof. decide equality; try apply cell_eq_dec. apply (list_eq_dec cell_eq_dec). Defined.

(** [series == s] on one cell: never true on a missing cell. *)
Definition cell_is (s : string) (c : cell) : bool :=
  match c with
  | Str t => (t =? s)%string
  | NaN => false
  end.

(** [series.notna()] *)
Definition notna (c : cell) : bool :=
  match c with
  | Str _ => true
  | NaN => false
  end.

(** [series.isin(["Present", "Absent"])] *)
Definition isin_marks (c : cell) : bool := cell_is "Present" c || cell_is "Absent" c.

(** [series.dropna()] *)
Fixpoint dropna (l : list cell) : list string :=
  match l with
  | [] => []
  | NaN :: t => dropna t
  | Str s :: t => s :: dropna t
  end.

Section Unique.
Context {A : Type} (eq_dec : forall a b : A, {a = b} + {a <> b}).

(** [unique()] and [drop_duplicates()]: the first occurrence of every
    value, in order of appearance. *)
Fixpoint unique (l : list A) : list A :=
  match l with
  | [] => []
  | x :: t => x :: filter (fun y => if eq_dec x y then false else true) (unique t)
  end.
End Unique.

(** [sorted(...)] on strings. *)
Fixpoint insert_sorted (s : string) (l : list string) : list string :=
  match l with
  | [] => [s]
  | t :: l' => if (s <=? t)%string then s :: l else t :: insert_sorted s l'
  end.

Fixpoint sorted (l : list string) : list string :=
  match l with
  | [] => []
  | s :: t => insert_sorted s (sorted t)
  end.

(* ================================================================== *)
(** * The record store                                                  *)
(* ================================================================== *)

(** What [read_csv] makes of one field of a column of text: a missing
    value or the text.  (In a column made only of numeric or boolean
    literals the reader returns numbers or booleans; a [text_store] has
    no such column.) *)
Definition read_cell (s : string) : cell :=
  if Text.isna s then NaN else Str s.

(** What [to_csv] writes for one cell. *)
Definition write_cell (c : cell) : string :=
  match c with
  | NaN => ""
  | Str s => s
  end.

(** The fields of a line under a header of [n] columns: a line that is
    shorter is filled with empty fields.  Every line that [to_csv] writes
    has [n] fields; of a longer one the first [n] are kept. *)
Definition fit {A : Type} (d : A) (n : nat) (l : list A) : list A :=
  firstn n (l ++ repeat d n).

Definition read_row (n : nat) (r : row string) : row cell :=
  Row (read_cell (Student_Name r)) (read_cell (Date r)) (read_cell (Time r))
      (read_cell (Status r)) (map read_cell (fit "" n (others r))).

Definition write_row (r : row cell) : row string :=
  Row (write_cell (Student_Name r)) (write_cell (Date r)) (write_cell (Time r))
      (write_cell (Status r)) (map write_cell (others r)).

Definition read_csv (f : file) : frame :=
  Sheet (extra_columns f) (map (read_row (List.length (extra_columns f))) (rows f)).

Definition to_csv (df : frame) : file :=
  Sheet (extra_columns df) (map write_row (rows df)).

(** [pd.DataFrame(columns=CSV_FIELDS)] *)
Definition empty_frame : frame := Sheet [] [].

Definition load_data (st : store) : frame * store :=
  match st with
  | None => (read_csv (to_csv empty_frame), Some (to_csv empty_frame))
  | Some f => (read_csv f, st)
  end.

Definition save_data (df : frame) (st : store) : store := Some (to_csv df).

(** ** [pd.concat] *)

(** The position of a column in a header. *)
Fixpoint index_of (c : string) (cols : list string) : option nat :=
  match cols with
  | [] => None
  | d :: t => if (d =? c)%string then Some 0 else option_map S (index_of c t)
  end.

(** [c in cols] *)
Definition mem (c : string) (cols : list string) : bool := existsb (String.eqb c) cols.

(** The cells of a row under another list of columns. *)
Definition reindex (from : list string) (cells : list cell) (to : list string) : list cell :=
  map (fun c => match index_of c from with
                | Some i => nth i cells NaN
                | None => NaN
                end) to.

Definition realign (from to : list string) (r : row cell) : row cell :=
  Row (Student_Name r) (Date r) (Time r) (Status r) (reindex from (others r) to).

(** [pd.concat([a, b], ignore_index=True)] *)
Definition concat (a b : frame) : frame :=
  let cols := extra_columns a
              ++ filter (fun c => negb (mem c (extra_columns a))) (extra_columns b) in
  Sheet cols (map (realign (extra_columns a) cols) (rows a)
              ++ map (realign (extra_columns b) cols) (rows b)).

(** [pd.DataFrame([new_row])] for a dict with the four keys. *)
Definition one_row (name date time status : string) : frame :=
  Sheet [] [ Row (Str name) (Str date) (Str time) (Str status) [] ].

(** [df.drop_duplicates()] *)
Definition drop_duplicates (df : frame) : frame :=
  Sheet (extra_columns df) (unique row_eq_dec (rows df)).

(* ================================================================== *)
(** * The student registry                                              *)
(* ================================================================== *)

Definition add_student (name : string) (st : store) : bool * store :=
  let (df, st) := load_data st in
  if negb (existsb (cell_is name) (unique cell_eq_dec (map Student_Name (rows df)))) then
    let df := concat df (one_row name "" "" "") in
    (true, save_data df st)
  else (false, st).

(** [s.strip()] is taken of every name, which are strings in a column of
    text. *)
Definition get_students (st : store) : list string * store :=
  let (df, st) := load_data st in
  let students := unique string_dec (dropna (map Student_Name (rows df))) in
  let students := filter Text.nonblank students in
  (sorted students, st).

(** [name and isinstance(name, str) and name.strip() != ""] *)
Definition validate_student_name (name : string) : bool :=
  negb (name =? "")%string && Text.nonblank name.

Inductive register_result : Type := Added | AlreadyExists | InvalidName.

(** The "Add Student" button. *)
Definition registerStudent (name : string) (st : store) : register_result * store :=
  if validate_student_name name then
    let (ok, st) := add_student (Text.strip name) st in
    (if ok then Added else AlreadyExists, st)
  else (InvalidName, st).

(* ================================================================== *)
(** * The attendance recorder                                           *)
(* ================================================================== *)

(** [datetime.now()] as the two [strftime] calls of the program read it:
    [date_str] is ["%Y-%m-%d"], [time_str] is ["%H:%M:%S"]. *)
Record clock : Type := Clock {
  date_str : string;
  time_str : string
}.

Definition mark_attendance (now : clock) (name status : string) (st : store)
  : bool * store :=
  let (df, st) := load_data st in
  let already_marked :=
    existsb (fun r => cell_is name (Student_Name r)
                      && cell_is (date_str now) (Date r)
                      && isin_marks (Status r)) (rows df) in
  if already_marked then (false, st)
  else
    let df := concat df (one_row name (date_str now) (time_str now) status) in
    (true, save_data df st).

(* ================================================================== *)
(** * Binary64 numbers                                                  *)
(* ================================================================== *)

(** The column ["Attendance %"] and the percentage of the dashboard are
    binary64 numbers: a quotient of two counts, rounded, times 100,
    rounded again.  Of binary64 this module has what these need: the
    numbers that are zero or positive and normal, and rounding to
    nearest, ties to even.  No quotient of two counts of rows, and no
    product of one by 100, leaves the range of the normal numbers. *)
Module Binary64.

(** Zero is [Float 0 0]; any other number is [mantissa * 2 ^ exponent]
    with [2 ^ 52 <= mantissa < 2 ^ 53]. *)
Record float : Type := Float { mantissa : Z; exponent : Z }.

Definition pow2 (e : Z) : Q :=
  if (0 <=? e)%Z then inject_Z (2 ^ e) else / inject_Z (2 ^ (- e)).

(** The rational number that a binary64 number is. *)
Definition value (x : float) : Q := inject_Z (mantissa x) * pow2 (exponent x).

(** [n / d] divided by [2 ^ e], as a fraction. *)
Definition scale (n d e : Z) : Z * Z :=
  if (0 <=? e)%Z then (n, d * 2 ^ e)%Z else (n * 2 ^ (- e), d)%Z.

(** The integer nearest to [a / b], the even one of two that are equally
    near. *)
Definition nearest_even (a b : Z) : Z :=
  let q := (a / b)%Z in
  match (2 * (a mod b) ?= b)%Z with
  | Lt => q
  | Gt => (q + 1)%Z
  | Eq => if Z.even q then q else (q + 1)%Z
  end.

(** The exponent [e] at which [n / d] has a significand of 53 bits:
    [2 ^ 52 <= n / d / 2 ^ e < 2 ^ 53]. *)
Definition exponent_of (n d : Z) : Z :=
  let e0 := (Z.log2 n - Z.log2 d - 52)%Z in
  if (fst (scale n d e0) / snd (scale n d e0) <? 2 ^ 52)%Z then (e0 - 1)%Z else e0.

(** The binary64 number nearest to a rational number that is not
    negative. *)
Definition round (x : Q) : float :=
  let n := Qnum x in
  let d := Zpos (Qden x) in
  if (n <=? 0)%Z then Float 0 0
  else
    let e := exponent_of n d in
    let m := nearest_even (fst (scale n d e)) (snd (scale n d e)) in
    if (m =? 2 ^ 53)%Z then Float (2 ^ 52) (e + 1) else Float m e.

(** An int64 count as a float64, the quotient and the product of two
    float64. *)
Definition of_nat (n : nat) : float := round (inject_Z (Z.of_nat n)).
Definition div (x y : float) : float := round (value x / value y).
Definition mul (x y : float) : float := round (value x * value y).

(** The unit roundoff, [2 ^ -53]. *)
Definition u : Q := 1 # 9007199254740992.

End Binary64.

(* ================================================================== *)
(** * The aggregator                                                    *)
(* ================================================================== *)

(** One line of the statistics table.  [Attendance] is the column
    ["Attendance %"], a binary64 number; [None] stands for the NaN that
    0 / 0 gives. *)
Record stat : Type := Stat {
  student : string;
  Present : nat;
  Absent : nat;
  Attendance : option Binary64.float
}.

(** [present / (present + absent) * 100] on two int64 counts: the counts
    become float64, the quotient is rounded, and so is the product. *)
Definition percentage (present absent : nat) : option Binary64.float :=
  if present + absent =? 0 then None
  else Some (Binary64.mul (Binary64.div (Binary64.of_nat present)
                                        (Binary64.of_nat (present + absent)))
                          (Binary64.of_nat 100)).

(** [df[df["Date"].notna() & (df["Date"] != "")]] *)
Definition dated (l : list (row cell)) : list (row cell) :=
  filter (fun r => notna (Date r) && negb (cell_is "" (Date r))) l.

(** The size of the group [(name, status)]. *)
Definition group_size (name status : string) (l : list (row cell)) : nat :=
  List.length (filter (fun r => cell_is name (Student_Name r)
                                && cell_is status (Status r)) l).

(** [df.groupby(["Student Name", "Status"]).size().unstack(fill_value=0)]:
    the rows with a missing key are dropped, the index is the sorted
    student names, and a status is a column of counts. *)
Definition groupby_size_unstack (l : list (row cell)) : list (string * (string -> nat)) :=
  let keyed := filter (fun r => notna (Student_Name r) && notna (Status r)) l in
  let index := sorted (unique string_dec (dropna (map Student_Name keyed))) in
  map (fun name => (name, fun status => group_size name status keyed)) index.

(** The lines of one statistics function from the [df.empty] test on. *)
Definition stats_table (l : list (row cell)) : list stat :=
  match l with
  | [] => []
  | _ :: _ =>
      map (fun g : string * (string -> nat) =>
             let (name, counts) := g in
             let present := counts "Present" in
             let absent := counts "Absent" in
             Stat name present absent (percentage present absent))
          (groupby_size_unstack l)
  end.

Definition attendance_stats (st : store) : list stat * store :=
  let (df, st) := load_data st in
  (stats_table (dated (rows df)), st).

(** A parsed date: what [.dt.year] and [.dt.month] read. *)
Inductive month_name : Type :=
| January | February | March | April | May | June
| July | August | September | October | November | December.

Definition month_number (m : month_name) : Z :=
  match m with
  | January => 1 | February => 2 | March => 3 | April => 4
  | May => 5 | June => 6 | July => 7 | August => 8
  | September => 9 | October => 10 | November => 11 | December => 12
  end%Z.

Record timestamp : Type := Timestamp {
  dt_year : Z;
  dt_month : month_name;
  dt_day : Z
}.

(** [series.dt.month == month] and [series.dt.year == year]; false on NaT. *)
Definition month_is (month : Z) (t : option timestamp) : bool :=
  match t with
  | Some ts => (month_number (dt_month ts) =? month)%Z
  | None => false
  end.

Definition year_is (year : Z) (t : option timestamp) : bool :=
  match t with
  | Some ts => (dt_year ts =? year)%Z
  | None => false
  end.

Section Dates.

(** [pd.to_datetime(column, errors="coerce")]: one parsed date, or NaT,
    for each cell of the column. *)
Variable to_datetime : list cell -> list (option timestamp).

(** The dated rows next to their parsed dates. *)
Definition stamped (l : list (row cell)) : list (row cell * option timestamp) :=
  combine (dated l) (to_datetime (map Date (dated l))).

(** The rows left by the filters on [.dt.month] and [.dt.year]. *)
Definition in_month (month year : Z) (l : list (row cell)) : list (row cell) :=
  let df := stamped l in
  let df := filter (fun rt => month_is month (snd rt)) df in
  let df := filter (fun rt => year_is year (snd rt)) df in
  map fst df.

Definition in_year (year : Z) (l : list (row cell)) : list (row cell) :=
  let df := stamped l in
  let df := filter (fun rt => year_is year (snd rt)) df in
  map fst df.

Definition attendance_stats_by_month (month year : Z) (st : store)
  : list stat * store :=
  let (df, st) := load_data st in
  (stats_table (in_month month year (rows df)), st).

Definition attendance_stats_by_year (year : Z) (st : store) : list stat * store :=
  let (df, st) := load_data st in
  (stats_table (in_year year (rows df)), st).

End Dates.

(* ================================================================== *)
(** * Import, export and deletion                                       *)
(* ================================================================== *)

(** The text of a CSV file: its header and its lines. *)
Record table : Type := Table {
  header : list string;
  lines : list (list string)
}.

(** What [pd.read_csv(uploaded_file)] gives: the table, or the exception
    it raised. *)
Inductive upload : Type :=
| Parsed (t : table)
| Unreadable (why : string).

Definition field (t : table) (c : string) (line : list string) : cell :=
  match index_of c (header t) with
  | Some i => read_cell (nth i line "")
  | None => NaN
  end.

(** The DataFrame of an uploaded table that has the four fields, with
    its columns under the names of the header and each line read by the
    places of its fields.  (The reader renames a column whose name is
    repeated or empty and shifts a line that is longer than the header;
    a [text_table] has no such name and no such line.) *)
Definition frame_of_table (t : table) : frame :=
  let extra := filter (fun c => negb (mem c CSV_FIELDS)) (header t) in
  Sheet extra
        (map (fun line =>
                Row (field t "Student Name" line) (field t "Date" line)
                    (field t "Time" line) (field t "Status" line)
                    (map (fun c => field t c line) extra))
             (lines t)).

(** The text of a file of the store, as [df.to_csv(index=False)] gives it. *)
Definition table_of_file (f : file) : table :=
  Table (CSV_FIELDS ++ extra_columns f)
        (map (fun r => [ Student_Name r; Date r; Time r; Status r ] ++ others r)
             (rows f)).

(** [set(CSV_FIELDS).issubset(df.columns)] *)
Definition has_fields (t : table) : bool := forallb (fun c => mem c (header t)) CSV_FIELDS.

Definition import_csv (uploaded_file : upload) (st : store) : (bool * string) * store :=
  match uploaded_file with
  | Unreadable e => ((false, "Import failed: " ++ e)%string, st)
  | Parsed t =>
      if has_fields t then
        let (orig_df, st) := load_data st in
        let combined_df := drop_duplicates (concat orig_df (frame_of_table t)) in
        ((true, "Import successful."), save_data combined_df st)
      else ((false, "CSV schema mismatch."), st)
  end.

Definition export_csv (st : store) : table * store :=
  let (df, st) := load_data st in
  (table_of_file (to_csv df), st).

(** [series == v] where [v] may itself be a missing value. *)
Definition eq_value (v c : cell) : bool :=
  match v with
  | Str s => cell_is s c
  | NaN => false
  end.

(** The mask of the rows that have the four values. *)
Definition matches (student_name date time status : cell) (r : row cell) : bool :=
  eq_value student_name (Student_Name r) && eq_value date (Date r)
  && eq_value time (Time r) && eq_value status (Status r).

Definition delete_attendance_record (student_name date time status : cell) (st : store)
  : store :=
  let (df, st) := load_data st in
  let df := Sheet (extra_columns df)
                  (filter (fun r => negb (matches student_name date time status r))
                          (rows df)) in
  save_data df st.

(* ================================================================== *)
(** * History, dashboard and filter choices                             *)
(* ================================================================== *)

Definition get_attendance_history (name : string) (st : store) : frame * store :=
  let (df, st) := load_data st in
  let history :=
    Sheet (extra_columns df)
          (filter (fun r => cell_is name (Student_Name r) && notna (Date r)
                            && negb (cell_is "" (Date r))) (rows df)) in
  (history, st).

(** The table "Today's Attendance" of the second tab:
    [df[df["Date"] == today]]. *)
Definition todays_attendance (now : clock) (st : store) : list (row cell) * store :=
  let (df, st) := load_data st in
  (filter (fun r => cell_is (date_str now) (Date r)) (rows df), st).

(** The three numbers that the dashboard shows for a student. *)
Record metrics : Type := Metrics {
  present_count : nat;
  absent_count : nat;
  percent : Binary64.float
}.

(** What [sorted] gives for numbers, one of which may be NaN ([None]):
    a column of months or years holds a NaN once a date was not parsed. *)
Definition number_le (a b : option Z) : Prop :=
  match a, b with
  | Some x, Some y => (x <= y)%Z
  | _, _ => False
  end.

Definition is_number (a : option Z) : bool :=
  match a with
  | Some _ => true
  | None => false
  end.

Definition option_Z_eq_dec (a b : option Z) : {a = b} + {a <> b}.
Proof. decide equality. apply Z.eq_dec. Defined.

Section Dashboard.

Variable to_datetime : list cell -> list (option timestamp).

(** The numbers of the third tab, for a student, a month and a year that
    were selected: the history of the student, its dates parsed, the rows
    of the month and year, and the counts of the two marks.  Nothing is
    computed, and nothing loaded, when no student is selected (the empty
    name).  The percentage is [present_count / total * 100] on two
    numpy counts, or the integer 0. *)
Definition student_dashboard (selected_student : string)
           (selected_month selected_year : Z) (st : store) : option metrics * store :=
  if (selected_student =? "")%string then (None, st)
  else
    let (history, st) := get_attendance_history selected_student st in
    let dates := to_datetime (map Date (rows history)) in
    let filtered_history :=
      filter (fun rt => month_is selected_month (snd rt)
                        && year_is selected_year (snd rt))
             (combine (rows history) dates) in
    let present_count :=
      List.length (filter (fun rt => cell_is "Present" (Status (fst rt))) filtered_history) in
    let absent_count :=
      List.length (filter (fun rt => cell_is "Absent" (Status (fst rt))) filtered_history) in
    let total := present_count + absent_count in
    let percent :=
      if 0 <? total
      then Binary64.mul (Binary64.div (Binary64.of_nat present_count)
                                      (Binary64.of_nat total))
                        (Binary64.of_nat 100)
      else Binary64.Float 0 0 in
    (Some (Metrics present_count absent_count percent), st).

(** [sorted] on the numbers of a column.  Of the order that Python gives
    to a list with a NaN in it only this is used: it is a rearrangement
    of the list; a list without NaN comes out ascending. *)
Variable py_sorted : list (option Z) -> list (option Z).

Definition get_month_year_options (st : store)
  : (list (option Z) * list (option Z)) * store :=
  let (df, st) := load_data st in
  let dates := to_datetime (map Date (dated (rows df))) in
  let months :=
    py_sorted (unique option_Z_eq_dec
                      (map (option_map (fun ts => month_number (dt_month ts))) dates)) in
  let years :=
    py_sorted (unique option_Z_eq_dec (map (option_map dt_year) dates)) in
  ((months, years), st).

End Dashboard.

(* ================================================================== *)
(** * Operations as a transition system                                 *)
(* ================================================================== *)

(** The four operations that write the store. *)
Inductive operation : Type :=
| RegisterStudent (name : string)
| MarkAttendance (now : clock) (name status : string)
| ImportRows (uploaded_file : upload)
| DeleteRecord (student_name date time status : cell).

Definition run (o : operation) (st : store) : store :=
  match o with
  | RegisterStudent name => snd (registerStudent name st)
  | MarkAttendance now name status => snd (mark_attendance now name status st)
  | ImportRows u => snd (import_csv u st)
  | DeleteRecord n d t s => delete_attendance_record n d t s st
  end.

Definition run_all (ops : list operation) (st : store) : store :=
  fold_left (fun s o => run o s) ops st.

(** The stores the program can be in, starting without a file. *)
Definition reachable (st : store) : Prop := exists ops, run_all ops None = st.

Definition is_import (o : operation) : bool :=
  match o with
  | ImportRows _ => true
  | _ => false
  end.


(** The rows an operation sees. *)
Definition loaded (st : store) : list (row cell) := rows (fst (load_data st)).



(* ================================================================== *)
(** * What the properties are stated with                              *)
(* ================================================================== *)

(** The four fields of a row, and the name column of a frame. *)
Definition four_fields {A : Type} (r : row A) : A * A * A * A :=
  (Student_Name r, Date r, Time r, Status r).

Definition names (l : list (row cell)) : list cell := map Student_Name l.

(** A cell after it was written and read again. *)
Definition reread (c : cell) : cell := read_cell (write_cell c).

Definition reload (n : nat) (r : row cell) : row cell := read_row n (write_row r).

(** A cell that [read_csv] can return, and a row of such cells with one
    cell for each extra column. *)
Definition canonical (c : cell) : Prop := reread c = c.

Definition canonical_row (n : nat) (r : row cell) : Prop :=
  canonical (Student_Name r) /\ canonical (Date r) /\ canonical (Time r)
  /\ canonical (Status r) /\ Forall canonical (others r) /\ List.length (others r) = n.

(** The order of [sorted]. *)
Definition ascending (a b : string) : Prop := (a <=? b)%string = true.



(** The rows of [l] that have a date, each next to what the parser makes
    of its date within the column of these dates. *)
Definition with_parsed_date (to_datetime : list cell -> list (option timestamp))
           (l : list (row cell)) : list (row cell * option timestamp) :=
  let with_date := filter (fun r => notna (Date r)) l in
  combine with_date (to_datetime (map Date with_date)).





(** How a field of the file shows in the frame: missing for the tokens
    of a missing value, as it is for text. *)
Definition reads (s : string) (c : cell) : Prop :=
  (In s Text.na_values -> c = NaN) /\ (Text.textual s = true -> c = Str s).

(** ** The files that the embedding covers *)

(** A field that the reader takes for a missing value or returns as it
    is, whatever the rest of its column holds, and that has no carriage
    return in it. *)
Definition text_field (s : string) : bool :=
  (Text.isna s || Text.textual s)
  && negb (existsb (fun c => (c =? "013")%char) (list_ascii_of_string s)).

Fixpoint distinct (l : list string) : bool :=
  match l with
  | [] => true
  | c :: t => negb (mem c t) && distinct t
  end.

(** Column names that the reader leaves as they are: no name is
    repeated or empty (the reader renames such a column), and each is
    text. *)
Definition text_header (cols : list string) : bool :=
  distinct cols && forallb Text.textual cols.

(** A file of the store in which every column bears a name of its own,
    every line has a field for every column, and every field is a
    [text_field]: the reader takes such a file for a frame of text and
    missing values, as the embedding does.  A missing file is one too. *)
Definition text_file (f : file) : bool :=
  text_header (CSV_FIELDS ++ extra_columns f)
  && forallb (fun r => text_field (Student_Name r) && text_field (Date r)
                       && text_field (Time r) && text_field (Status r)
                       && forallb text_field (others r)
                       && (List.length (others r) =? List.length (extra_columns f)))
             (rows f).

Definition text_store (st : store) : bool :=
  match st with
  | None => true
  | Some f => text_file f
  end.

(** An uploaded table of the same kind. *)
Definition text_table (t : table) : bool :=
  text_header (header t)
  && forallb (fun line => forallb text_field line
                          && (List.length line =? List.length (header t)))
             (lines t).

(** ** The cells of a row by the name of their column *)

(** The cell that a row has in the column [c], in a frame whose columns
    are the four fields and [cols]; missing when there is no such
    column. *)
Definition at_column (cols : list string) (r : row cell) (c : string) : cell :=
  if (c =? "Student Name")%string then Student_Name r
  else if (c =? "Date")%string then Date r
  else if (c =? "Time")%string then Time r
  else if (c =? "Status")%string then Status r
  else match index_of c cols with
       | Some i => nth i (others r) NaN
       | None => NaN
       end.

(** A row of the frame with the columns [cols] holds what the line of
    an uploaded table holds: under each name of the header the field at
    that place of the line, as the reader reads a field, and a missing
    value in every other column. *)
Definition holds_line (cols : list string) (r : row cell) (t : table)
           (line : list string) : Prop :=
  (forall i c, nth_error (header t) i = Some c ->
               at_column cols r c = read_cell (nth i line ""))
  /\ (forall c, ~ In c (header t) -> at_column cols r c = NaN).

(** A row of the frame with the columns [cols] holds what a row [q] of
    the frame with the columns [cols'] holds. *)
Definition holds_row (cols : list string) (r : row cell) (cols' : list string)
           (q : row cell) : Prop :=
  forall c, at_column cols r c = at_column cols' q c.

(** A clock whose date and time are text fields, as those that
    [strftime] gives. *)
Definition text_clock (now : clock) : bool :=
  text_field (date_str now) && text_field (time_str now).

(** ** The round trip, and the dates of one student *)

(** The rows of [st], exported and imported into [st0], are the rows of
    [st] with every row kept once. *)
Definition round_trip (st st0 : store) : Prop :=
  let result := import_csv (Parsed (fst (export_csv st))) st0 in
  fst result = (true, "Import successful.")
  /\ fst (load_data (snd result)) = drop_duplicates (fst (load_data st))
  /\ (forall r, count_occ row_eq_dec (loaded (snd result)) r
                = if in_dec row_eq_dec r (loaded st) then 1 else 0)
  /\ (extra_columns (fst (load_data st)) = [] ->
      forall r r', In r (loaded st) -> In r' (loaded st) ->
                   four_fields r = four_fields r' -> r = r').

(** The parser makes of the dates of a student's history, given to it
    alone, what it makes of them within the column of all dates.  (The
    parser takes the format of a column from its first date.) *)
Definition parsed_alike (to_datetime : list cell -> list (option timestamp))
           (name : string) (st : store) : Prop :=
  to_datetime (map Date (rows (fst (get_attendance_history name st))))
  = map snd (filter (fun rt => cell_is name (Student_Name (fst rt)))
                    (with_parsed_date to_datetime (loaded st))).

(* ================================================================== *)
(** * The specification's reading, and sample data                      *)
(* ================================================================== *)

(** Reading "each field as text, with no coercion": what [load()] would
    return of a file line if nothing were converted. *)
Definition read_row_as_text (r : row string) : row cell :=
  Row (Str (Student_Name r)) (Str (Date r)) (Str (Time r)) (Str (Status r))
      (map Str (others r)).

(** A row cut down to the four fields. *)
Definition project (r : row cell) : row cell :=
  Row (Student_Name r) (Date r) (Time r) (Status r) [].

(** The field that a line of an uploaded table has under the name [c]
    of the header, as the reader reads a field. *)
Definition named (t : table) (line : list string) (c : string) : cell :=
  match index_of c (header t) with
  | Some i => read_cell (nth i line "")
  | None => NaN
  end.

(** [importRows] as the specification words it: the external rows, their
    additional columns ignored, joined to the rows of the store, and rows
    equal on the four fields collapsed to one. *)
Definition importRows_spec (t : table) (st : store) : list (row cell) :=
  unique row_eq_dec
         (map project (loaded st)
          ++ map (fun line => Row (named t line "Student Name") (named t line "Date")
                                  (named t line "Time") (named t line "Status") [])
                 (lines t)).

(** An instance of [to_datetime] for the format the program writes,
    ["%Y-%m-%d"]; the library reads other formats as well. *)
Module Iso.

Definition digit (c : ascii) : option Z :=
  if Text.is_digit c then Some (Z.of_nat (nat_of_ascii c - 48)) else None.

Fixpoint number (acc : Z) (l : list ascii) : option Z :=
  match l with
  | [] => Some acc
  | c :: t => match digit c with
              | Some d => number (10 * acc + d) t
              | None => None
              end
  end.

Definition month_of (m : Z) : option month_name :=
  match m with
  | 1 => Some January | 2 => Some February | 3 => Some March
  | 4 => Some April | 5 => Some May | 6 => Some June
  | 7 => Some July | 8 => Some August | 9 => Some September
  | 10 => Some October | 11 => Some November | 12 => Some December
  | _ => None
  end%Z.

Definition leap (y : Z) : bool :=
  ((y mod 4 =? 0) && (negb (y mod 100 =? 0) || (y mod 400 =? 0)))%Z.

Definition days_in (y : Z) (m : month_name) : Z :=
  match m with
  | February => if leap y then 29 else 28
  | April | June | September | November => 30
  | _ => 31
  end%Z.

Definition parse (s : string) : option timestamp :=
  match list_ascii_of_string s with
  | [y1; y2; y3; y4; "-"; m1; m2; "-"; d1; d2]%char =>
      match number 0 [y1; y2; y3; y4], number 0 [m1; m2], number 0 [d1; d2] with
      | Some y, Some m, Some d =>
          match month_of m with
          | Some mn =>
              if ((1 <=? y) && (1 <=? d) && (d <=? days_in y mn))%Z
              then Some (Timestamp y mn d) else None
          | None => None
          end
      | _, _, _ => None
      end
  | _ => None
  end.

Definition to_datetime (column : list cell) : list (option timestamp) :=
  map (fun c => match c with Str s => parse s | NaN => None end) column.

End Iso.

Module Sample.

Definition morning : clock := Clock "2024-01-05" "09:00:00".
Definition evening : clock := Clock "2024-01-05" "17:30:00".

(** Two marks for one student on one day, at different times. *)
Definition two_marks : table :=
  Table CSV_FIELDS
        [ [ "Alice"; "2024-01-05"; "09:00:00"; "Present" ];
          [ "Alice"; "2024-01-05"; "09:05:00"; "Absent" ] ].

(** A file with a fifth column. *)
Definition noted : table :=
  Table (CSV_FIELDS ++ [ "Note" ])
        [ [ "Alice"; "2024-01-05"; "09:00:00"; "Present"; "bus" ];
          [ "Alice"; "2024-01-05"; "09:00:00"; "Present"; "train" ] ].

(** A file without the column ["Status"]. *)
Definition no_status : table :=
  Table [ "Student Name"; "Date"; "Time" ] [ [ "Alice"; "2024-01-05"; "09:00:00" ] ].

(** A student with three days present and one absent, a placeholder
    row and a row entered twice. *)
Definition term : store :=
  Some (Sheet [] [ Row "Alice" "" "" "" [];
                   Row "Alice" "2024-01-05" "09:00:00" "Present" [];
                   Row "Alice" "2024-01-08" "09:01:00" "Present" [];
                   Row "Bob" "2024-01-08" "09:02:00" "Absent" [];
                   Row "Alice" "2024-02-09" "09:00:00" "Absent" [];
                   Row "Alice" "2024-02-12" "08:59:00" "Present" [];
                   Row "Bob" "2024-01-08" "09:02:00" "Absent" [] ]).

(** A row that was imported without a time. *)
Definition timeless : store :=
  Some (Sheet [] [ Row "Alice" "2024-01-05" "" "Present" [] ]).

(** A store that holds one placeholder row. *)
Definition registered : store := Some (Sheet [] [ Row "Alice" "" "" "" [] ]).

End Sample.

(* ================================================================== *)
(** * What the further properties are stated with                     *)
(* ================================================================== *)

(** An operation whose uploaded file, if it has one, bears distinct column
    names, as every table that [read_csv] returns does. *)
Definition readable (o : operation) : Prop :=
  match o with
  | ImportRows (Parsed t) => NoDup (header t)
  | _ => True
  end.

(** The columns that a store has besides the four fields. *)
Definition columns (st : store) : list string := extra_columns (fst (load_data st)).

(** The test of [mark_attendance], on the loaded rows. *)
Definition marked (name day : string) (l : list (row cell)) : bool :=
  existsb (fun r => cell_is name (Student_Name r) && cell_is day (Date r)
                    && isin_marks (Status r)) l.

Definition fields_eq_dec (a b : cell * cell * cell * cell) : {a = b} + {a <> b}.
Proof. repeat decide equality. Defined.

Definition is_parsed (t : option timestamp) : bool :=
  match t with
  | Some _ => true
  | None => false
  end.

(** A sort of numbers by insertion, one of the functions that [py_sorted]
    stands for. *)
Module Numbers.

Definition leb (a b : option Z) : bool :=
  match a, b with
  | Some x, Some y => (x <=? y)%Z
  | _, _ => true
  end.

Fixpoint insert (a : option Z) (l : list (option Z)) : list (option Z) :=
  match l with
  | [] => [a]
  | b :: t => if leb a b then a :: l else b :: insert a t
  end.

Fixpoint sort (l : list (option Z)) : list (option Z) :=
  match l with
  | [] => []
  | a :: t => insert a (sort t)
  end.

End Numbers.

(* ================================================================== *)
(** * Lemmas on text                                                    *)
(* ================================================================== *)

Module TextFacts.
Import Text.

Lemma skip_nil_iff (p : ascii -> bool) (l : list ascii) :
  skip p l = [] <-> forallb p l = true.
Proof.
  induction l as [|c t IH]; simpl.
  - tauto.
  - destruct (p c); simpl.
    + exact IH.
    + split; discriminate.
Qed.

Lemma forallb_skip (p : ascii -> bool) (l : list ascii) :
  forallb p (skip p l) = forallb p l.
Proof.
  induction l as [|c t IH]; simpl; [reflexivity|].
  destruct (p c) eqn:E; simpl; [exact IH | now rewrite E].
Qed.

Lemma forallb_rev (p : ascii -> bool) (l : list ascii) :
  forallb p (rev l) = forallb p l.
Proof.
  induction l as [|c t IH]; simpl; [reflexivity|].
  rewrite forallb_app, IH. simpl. rewrite andb_true_r. apply andb_comm.
Qed.

Lemma string_of_list_ascii_nil (l : list ascii) :
  string_of_list_ascii l = "" <-> l = [].
Proof. destruct l; simpl; split; (reflexivity || discriminate). Qed.

Lemma strip_empty_iff (s : string) : strip s = "" <-> blank s = true.
Proof.
  unfold strip, blank, rstrip, lstrip.
  rewrite string_of_list_ascii_nil.
  split.
  - intros H. apply (f_equal (@rev ascii)) in H. rewrite rev_involutive in H.
    simpl in H. apply skip_nil_iff in H.
    now rewrite forallb_rev, forallb_skip in H.
  - intros H. rewrite <- forallb_skip, <- forallb_rev in H.
    apply skip_nil_iff in H. now rewrite H.
Qed.

Lemma nonblank_blank (s : string) : nonblank s = negb (blank s).
Proof.
  unfold nonblank. destruct (blank s) eqn:B; simpl.
  - apply strip_empty_iff in B. now rewrite B.
  - destruct (String.eqb_spec (strip s) "") as [E|E]; [|reflexivity].
    apply strip_empty_iff in E. congruence.
Qed.

Lemma blank_strip (s : string) : blank (strip s) = blank s.
Proof.
  unfold blank, strip, rstrip, lstrip.
  rewrite list_ascii_of_string_of_list_ascii.
  now rewrite forallb_rev, forallb_skip, forallb_rev, forallb_skip.
Qed.

Lemma nonblank_strip (s : string) : nonblank (strip s) = nonblank s.
Proof. now rewrite !nonblank_blank, blank_strip. Qed.

Lemma nonblank_nonempty (s : string) : nonblank s = true -> s <> "".
Proof. intros H ->. discriminate H. Qed.

Lemma textual_not_na (s : string) : textual s = true -> isna s = false.
Proof.
  unfold textual. intros H.
  apply andb_prop in H as [H _]. apply andb_prop in H as [H _].
  now apply negb_true_iff in H.
Qed.

Lemma isna_empty : isna "" = true.
Proof. reflexivity. Qed.

End TextFacts.

(* ================================================================== *)
(** * Lemmas on lists: [unique], [sorted], filters                      *)
(* ================================================================== *)

Section UniqueFacts.
Context {A : Type} (eq_dec : forall a b : A, {a = b} + {a <> b}).

Lemma unique_In (x : A) (l : list A) : In x (unique eq_dec l) <-> In x l.
Proof.
  induction l as [|a t IH]; simpl; [tauto|].
  rewrite filter_In, IH.
  destruct (eq_dec a x) as [->|N].
  - split; [intros [H|[H _]]; auto | auto].
  - split.
    + intros [H|[H _]]; auto.
    + intros [H|H]; [auto | right; split; [exact H|]].
      destruct (eq_dec a x); [contradiction|reflexivity].
Qed.

Lemma unique_NoDup (l : list A) : NoDup (unique eq_dec l).
Proof.
  induction l as [|a t IH]; simpl; constructor.
  - rewrite filter_In. intros [_ H].
    destruct (eq_dec a a); [discriminate|contradiction].
  - now apply NoDup_filter.
Qed.

Lemma unique_count (x : A) (l : list A) :
  count_occ eq_dec (unique eq_dec l) x = if in_dec eq_dec x l then 1 else 0.
Proof.
  destruct (in_dec eq_dec x l) as [I|I].
  - apply unique_In in I. apply NoDup_count_occ' ; [apply unique_NoDup | exact I].
  - apply count_occ_not_In. now rewrite unique_In.
Qed.

Lemma unique_NoDup_id (l : list A) : NoDup l -> unique eq_dec l = l.
Proof.
  induction 1 as [|a t N _ IH]; simpl; [reflexivity|].
  rewrite IH. f_equal.
  apply forallb_filter_id. apply forallb_forall. intros y Hy.
  destruct (eq_dec a y) as [->|]; [contradiction|reflexivity].
Qed.

Lemma existsb_unique (p : A -> bool) (l : list A) :
  existsb p (unique eq_dec l) = existsb p l.
Proof.
  apply eq_true_iff_eq. rewrite !existsb_exists.
  split; intros [x [I H]]; exists x; split; auto; now apply unique_In.
Qed.

End UniqueFacts.

Lemma insert_sorted_perm (s : string) (l : list string) :
  Permutation (s :: l) (insert_sorted s l).
Proof.
  induction l as [|t l IH]; simpl; [reflexivity|].
  destruct (s <=? t)%string; [reflexivity|].
  rewrite perm_swap. now constructor.
Qed.

Lemma sorted_perm (l : list string) : Permutation l (sorted l).
Proof.
  induction l as [|s t IH]; simpl; [constructor|].
  rewrite <- insert_sorted_perm. now constructor.
Qed.

Lemma sorted_In (x : string) (l : list string) : In x (sorted l) <-> In x l.
Proof.
  split; apply Permutation_in; [symmetry|]; apply sorted_perm.
Qed.

Lemma insert_sorted_Sorted (s : string) (l : list string) :
  Sorted ascending l -> Sorted ascending (insert_sorted s l).
Proof.
  induction 1 as [|t l S IH H]; simpl.
  - repeat constructor.
  - destruct (s <=? t)%string eqn:E.
    + constructor; [now constructor | now constructor].
    + constructor; [exact IH|].
      assert (T : ascending t s).
      { destruct (String.leb_total s t) as [L|L]; [congruence|exact L]. }
      destruct l as [|u l]; simpl.
      * now constructor.
      * destruct (s <=? u)%string; constructor; [exact T|].
        now inversion H.
Qed.

Lemma sorted_Sorted (l : list string) : Sorted ascending (sorted l).
Proof.
  induction l as [|s t IH]; simpl; [constructor|].
  now apply insert_sorted_Sorted.
Qed.

Lemma sorted_NoDup (l : list string) : NoDup l -> NoDup (sorted l).
Proof. apply Permutation_NoDup, sorted_perm. Qed.


Lemma dropna_In (s : string) (l : list cell) : In s (dropna l) <-> In (Str s) l.
Proof.
  induction l as [|[|t] l IH]; simpl.
  - tauto.
  - rewrite IH. split; [auto|]. intros [H|H]; [discriminate|exact H].
  - rewrite IH. split; intros [H|H]; auto; [left; congruence | left; congruence].
Qed.

Lemma existsb_cell_is (s : string) (l : list cell) :
  existsb (cell_is s) l = true <-> In (Str s) l.
Proof.
  rewrite existsb_exists. split.
  - intros [[|t] [I H]]; simpl in H; [discriminate|].
    apply String.eqb_eq in H. now subst.
  - intros I. exists (Str s). split; [exact I|]. simpl. apply String.eqb_refl.
Qed.

(* ================================================================== *)
(** * Lemmas on binary64 numbers                                        *)
(* ================================================================== *)

Module Binary64Facts.
Import Binary64.
Local Open Scope Z_scope.


Lemma nearest_even_le (a b g : Z) : 0 < b -> a <= g * b -> nearest_even a b <= g.
Proof.
  intros B H. unfold nearest_even.
  pose proof (Z.div_mod a b ltac:(lia)) as E.
  pose proof (Z.mod_pos_bound a b B) as R.
  assert (Q : a / b <= g) by nia.
  destruct (Z.eq_dec (a / b) g) as [G|G].
  - assert (a mod b = 0) by nia.
    destruct (Z.compare_spec (2 * (a mod b)) b); [destruct (Z.even (a / b))|..]; lia.
  - destruct (Z.compare_spec (2 * (a mod b)) b); [destruct (Z.even (a / b))|..]; lia.
Qed.

Lemma nearest_even_ge (a b g : Z) : 0 < b -> g * b <= a -> g <= nearest_even a b.
Proof.
  intros B H. unfold nearest_even.
  pose proof (Z.div_mod a b ltac:(lia)) as E.
  pose proof (Z.mod_pos_bound a b B) as R.
  assert (Q : g <= a / b) by nia.
  destruct (Z.compare_spec (2 * (a mod b)) b); [destruct (Z.even (a / b))|..]; lia.
Qed.


Lemma scale_pos (n d e : Z) :
  0 < n -> 0 < d -> 0 < fst (scale n d e) /\ 0 < snd (scale n d e).
Proof.
  intros N D. unfold scale. destruct (Z.leb_spec 0 e); simpl.
  - split; [lia|]. apply Z.mul_pos_pos; [lia|]. apply Z.pow_pos_nonneg; lia.
  - split; [|lia]. apply Z.mul_pos_pos; [lia|]. apply Z.pow_pos_nonneg; lia.
Qed.

Lemma pow2_step (e : Z) : 0 < e -> 2 ^ e = 2 * 2 ^ (e - 1).
Proof.
  intros H. replace e with (Z.succ (e - 1)) at 1 by lia. apply Z.pow_succ_r. lia.
Qed.

Lemma scale_down (n d e : Z) :
  0 < n -> 0 < d ->
  fst (scale n d (e - 1)) * snd (scale n d e)
  = 2 * fst (scale n d e) * snd (scale n d (e - 1)).
Proof.
  intros N D. unfold scale.
  destruct (Z.leb_spec 0 e), (Z.leb_spec 0 (e - 1)); cbn [fst snd]; try lia.
  - rewrite (pow2_step e) by lia. ring.
  - assert (e = 0) by lia. subst. change (2 ^ 0) with 1. change (2 ^ (- (0 - 1))) with 2. ring.
  - rewrite (pow2_step (- (e - 1))) by lia.
    replace (- (e - 1) - 1) with (- e) by lia. ring.
Qed.

Lemma exponent_of_normal (n d : Z) :
  0 < n -> 0 < d ->
  let a := fst (scale n d (exponent_of n d)) in
  let b := snd (scale n d (exponent_of n d)) in
  2 ^ 52 * b <= a < 2 ^ 53 * b.
Proof.
  intros N D. cbv zeta. unfold exponent_of.
  set (e0 := Z.log2 n - Z.log2 d - 52).
  destruct (Z.log2_spec n N) as [Ln Un]. destruct (Z.log2_spec d D) as [Ld Ud].
  pose proof (Z.log2_nonneg n) as Pn. pose proof (Z.log2_nonneg d) as Pd.
  set (ln := Z.log2 n) in *. set (ld := Z.log2 d) in *.
  rewrite Z.pow_succ_r in Un, Ud by lia.
  assert (P52 : 0 < 2 ^ 52) by (apply Z.pow_pos_nonneg; lia).
  assert (Pln : 0 < 2 ^ ln) by (apply Z.pow_pos_nonneg; lia).
  assert (Pld : 0 < 2 ^ ld) by (apply Z.pow_pos_nonneg; lia).
  replace (2 ^ 53) with (2 * 2 ^ 52) by reflexivity.
  set (T := 2 ^ 52) in *.
  (* the quotient at e0 is below 2^53 *)
  assert (U0 : fst (scale n d e0) < 2 * T * snd (scale n d e0)).
  { unfold scale. destruct (Z.leb_spec 0 e0); cbn [fst snd].
    - assert (E : ln = e0 + ld + 52) by (unfold e0; lia).
      rewrite E in Un. rewrite !Z.pow_add_r in Un by lia. fold T in Un.
      assert (0 < 2 ^ e0) by (apply Z.pow_pos_nonneg; lia).
      assert (2 ^ e0 * 2 ^ ld <= 2 ^ e0 * d) by nia.
      assert (2 ^ e0 * 2 ^ ld * T <= 2 ^ e0 * d * T) by nia.
      lia.
    - assert (E : ld + 52 = ln + - e0) by (unfold e0; lia).
      assert (E' : 2 ^ ld * T = 2 ^ ln * 2 ^ (- e0)).
      { assert (X : 2 ^ (ld + 52) = 2 ^ ld * T)
          by (rewrite !Z.pow_add_r by lia; reflexivity).
        rewrite <- X, E. apply Z.pow_add_r; lia. }
      assert (0 < 2 ^ (- e0)) by (apply Z.pow_pos_nonneg; lia).
      assert (n * 2 ^ (- e0) < 2 * 2 ^ ln * 2 ^ (- e0)) by nia.
      assert (2 ^ ld * T <= d * T) by nia.
      lia. }
  destruct (scale_pos n d e0 N D) as [A0 B0].
  destruct (scale_pos n d (e0 - 1) N D) as [A1 B1].
  pose proof (scale_down n d e0 N D) as S.
  destruct (Z.ltb_spec (fst (scale n d e0) / snd (scale n d e0)) T) as [Lt|Ge].
  - (* one exponent lower *)
    assert (Lt' : fst (scale n d e0) < T * snd (scale n d e0)).
    { pose proof (Z.div_mod (fst (scale n d e0)) (snd (scale n d e0)) ltac:(lia)).
      pose proof (Z.mod_pos_bound (fst (scale n d e0)) (snd (scale n d e0)) B0). nia. }
    split; [|nia].
    unfold scale. destruct (Z.leb_spec 0 (e0 - 1)); cbn [fst snd].
    + assert (E : ln = (e0 - 1) + (ld + 1) + 52) by (unfold e0; lia).
      rewrite E in Ln. rewrite !Z.pow_add_r in Ln by lia. fold T in Ln.
      change (2 ^ 1) with 2 in Ln.
      assert (0 < 2 ^ (e0 - 1)) by (apply Z.pow_pos_nonneg; lia).
      assert (d * 2 ^ (e0 - 1) <= 2 ^ (e0 - 1) * (2 ^ ld * 2)) by nia.
      assert (T * (d * 2 ^ (e0 - 1)) <= T * (2 ^ (e0 - 1) * (2 ^ ld * 2))) by nia.
      lia.
    + assert (E : ld + 1 + 52 = ln + - (e0 - 1)) by (unfold e0; lia).
      assert (E' : 2 ^ ld * 2 * T = 2 ^ ln * 2 ^ (- (e0 - 1))).
      { assert (X : 2 ^ (ld + 1 + 52) = 2 ^ ld * 2 * T)
          by (rewrite !Z.pow_add_r by lia; reflexivity).
        rewrite <- X, E. apply Z.pow_add_r; lia. }
      assert (0 < 2 ^ (- (e0 - 1))) by (apply Z.pow_pos_nonneg; lia).
      assert (2 ^ ln * 2 ^ (- (e0 - 1)) <= n * 2 ^ (- (e0 - 1))) by nia.
      assert (T * d <= T * (2 ^ ld * 2)) by nia.
      lia.
  - split; [|lia].
    pose proof (Z.mul_div_le (fst (scale n d e0)) (snd (scale n d e0)) B0). nia.
Qed.


Local Open Scope Q_scope.







Lemma Qnum_pos (x : Q) : 0 < x <-> (0 < Qnum x)%Z.
Proof. unfold Qlt. simpl. rewrite Z.mul_1_r. reflexivity. Qed.





(** The significand has 53 bits. *)
Lemma round_normal (x : Q) :
  0 < x -> (2 ^ 52 <= mantissa (round x) < 2 ^ 53)%Z.
Proof.
  intros X. apply Qnum_pos in X. unfold round.
  destruct (Z.leb_spec (Qnum x) 0); [lia|].
  set (e := exponent_of (Qnum x) (Zpos (Qden x))).
  pose proof (exponent_of_normal (Qnum x) (Zpos (Qden x)) X ltac:(lia)) as NB.
  cbv zeta in NB. fold e in NB.
  destruct (scale_pos (Qnum x) (Zpos (Qden x)) e X ltac:(lia)) as [A B].
  set (a := fst (scale (Qnum x) (Zpos (Qden x)) e)) in *.
  set (b := snd (scale (Qnum x) (Zpos (Qden x)) e)) in *.
  assert (L : (2 ^ 52 <= nearest_even a b)%Z) by (apply nearest_even_ge; lia).
  assert (U : (nearest_even a b <= 2 ^ 53)%Z) by (apply nearest_even_le; lia).
  destruct (Z.eqb_spec (nearest_even a b) (2 ^ 53)); cbn [mantissa]; lia.
Qed.




End Binary64Facts.

(* ================================================================== *)
(** * Lemmas on the record store                                        *)
(* ================================================================== *)

Lemma read_cell_textual (s : string) : Text.textual s = true -> read_cell s = Str s.
Proof. intros H. unfold read_cell. now rewrite (TextFacts.textual_not_na s H). Qed.

Lemma read_cell_cases (s : string) :
  (Text.isna s = true /\ read_cell s = NaN) \/ (Text.isna s = false /\ read_cell s = Str s).
Proof. unfold read_cell. destruct (Text.isna s); auto. Qed.

Lemma reread_read (s : string) : reread (read_cell s) = read_cell s.
Proof.
  unfold reread. destruct (read_cell_cases s) as [[_ ->]|[N E]]; [reflexivity|].
  rewrite E. simpl. unfold read_cell. now rewrite N.
Qed.

Lemma reread_textual (s : string) : Text.textual s = true -> reread (Str s) = Str s.
Proof. apply read_cell_textual. Qed.



Lemma load_data_Some (f : file) : load_data (Some f) = (read_csv f, Some f).
Proof. reflexivity. Qed.

Lemma load_data_again (st : store) :
  load_data (snd (load_data st)) = load_data st.
Proof. destruct st; reflexivity. Qed.


Lemma loaded_save (df : frame) (st : store) :
  loaded (save_data df st) = map (reload (List.length (extra_columns df))) (rows df).
Proof. unfold loaded, save_data. simpl. now rewrite map_map. Qed.

Lemma loaded_again (st : store) : loaded (snd (load_data st)) = loaded st.
Proof. unfold loaded. now rewrite load_data_again. Qed.

Lemma rows_concat (a b : frame) :
  rows (concat a b)
  = map (realign (extra_columns a) (extra_columns (concat a b))) (rows a)
    ++ map (realign (extra_columns b) (extra_columns (concat a b))) (rows b).
Proof. reflexivity. Qed.

Lemma length_concat (a b : frame) :
  List.length (rows (concat a b)) = List.length (rows a) + List.length (rows b).
Proof. rewrite rows_concat, length_app, !length_map. reflexivity. Qed.

(** ** Marks are counted on the four fields *)






(** ** Every writer keeps [one_mark_per_day] but the importer *)









Lemma isin_marks_Str (s : string) :
  isin_marks (Str s) = true <-> s = "Present" \/ s = "Absent".
Proof.
  unfold isin_marks. simpl. rewrite orb_true_iff, !String.eqb_eq. tauto.
Qed.

Lemma reread_mark (s : string) : s = "Present" \/ s = "Absent" -> reread (Str s) = Str s.
Proof. intros [->| ->]; reflexivity. Qed.


(** ** What a writer leaves in the store *)

Lemma store_Some_load (st : store) : st <> None -> snd (load_data st) = st.
Proof. destruct st; [reflexivity|congruence]. Qed.

Lemma load_data_not_None (st : store) : snd (load_data st) <> None.
Proof. destruct st; discriminate. Qed.

Lemma loaded_read (st : store) (r : row cell) :
  In r (loaded st) -> exists n line, r = read_row n line.
Proof.
  destruct st as [f|]; unfold loaded; simpl; [|tauto].
  rewrite in_map_iff. intros [line [E _]]. eauto.
Qed.

Lemma four_fields_reload (n : nat) (r : row cell) :
  four_fields (reload n r)
  = (reread (Student_Name r), reread (Date r), reread (Time r), reread (Status r)).
Proof. reflexivity. Qed.

Lemma four_fields_reload_loaded (st : store) (n : nat) (from to : list string) (r : row cell) :
  In r (loaded st) -> four_fields (reload n (realign from to r)) = four_fields r.
Proof.
  intros I. destruct (loaded_read st r I) as [m [line ->]].
  rewrite four_fields_reload. unfold four_fields. simpl.
  now rewrite !reread_read.
Qed.

(** The rows seen after a row was appended to what was loaded. *)
Lemma loaded_append (st st' : store) (df : frame) (name date time status : string) :
  rows df = loaded st ->
  map four_fields (loaded (save_data (concat df (one_row name date time status)) st'))
  = map four_fields (loaded st)
    ++ [ (read_cell name, read_cell date, read_cell time, read_cell status) ].
Proof.
  intros Hdf. rewrite loaded_save, rows_concat, !map_app, !map_map. f_equal.
  rewrite Hdf. apply map_ext_in. intros r I.
  now apply (four_fields_reload_loaded st).
Qed.

Lemma names_four (l : list (row cell)) :
  names l = map (fun q => fst (fst (fst q))) (map four_fields l).
Proof. unfold names. rewrite map_map. reflexivity. Qed.

(** ** The registry *)

Lemma add_student_new (name : string) (st : store) :
  ~ In (Str name) (names (loaded st)) ->
  fst (add_student name st) = true
  /\ map four_fields (loaded (snd (add_student name st)))
     = map four_fields (loaded st) ++ [ (read_cell name, NaN, NaN, NaN) ].
Proof.
  intros N. unfold add_student.
  destruct (load_data st) as [df st'] eqn:L.
  assert (Hdf : rows df = loaded st) by (unfold loaded; now rewrite L).
  rewrite existsb_unique.
  destruct (existsb (cell_is name) (map Student_Name (rows df))) eqn:E.
  - apply existsb_cell_is in E. rewrite Hdf in E. contradiction.
  - simpl. split; [reflexivity|]. now apply loaded_append.
Qed.

Lemma add_student_known (name : string) (st : store) :
  In (Str name) (names (loaded st)) ->
  add_student name st = (false, snd (load_data st)).
Proof.
  intros I. unfold add_student.
  destruct (load_data st) as [df st'] eqn:L.
  assert (Hdf : rows df = loaded st) by (unfold loaded; now rewrite L).
  rewrite existsb_unique.
  assert (E : existsb (cell_is name) (map Student_Name (rows df)) = true).
  { apply existsb_cell_is. now rewrite Hdf. }
  now rewrite E.
Qed.

Lemma add_student_store (name : string) (st : store) :
  snd (add_student name st) <> None.
Proof.
  unfold add_student. destruct (load_data st) as [df st'] eqn:L.
  destruct (negb _); simpl; [discriminate|].
  replace st' with (snd (load_data st)) by now rewrite L.
  apply load_data_not_None.
Qed.

Lemma add_student_listed (name : string) (st : store) :
  Text.textual name = true ->
  In (Str name) (names (loaded (snd (add_student name st)))).
Proof.
  intros T.
  destruct (in_dec cell_eq_dec (Str name) (names (loaded st))) as [I|N].
  - rewrite (add_student_known _ _ I). simpl. now rewrite loaded_again.
  - destruct (add_student_new _ _ N) as [_ E].
    rewrite names_four, E, map_app. apply in_or_app. right. simpl. left.
    now apply read_cell_textual.
Qed.

Lemma get_students_store (st : store) : snd (get_students st) = snd (load_data st).
Proof. unfold get_students. now destruct (load_data st). Qed.

Lemma get_students_In (st : store) (s : string) :
  In s (fst (get_students st))
  <-> In (Str s) (names (loaded st)) /\ Text.nonblank s = true.
Proof.
  unfold get_students, loaded, names. destruct (load_data st) as [df st']. simpl.
  now rewrite sorted_In, filter_In, unique_In, dropna_In.
Qed.

Lemma get_students_NoDup (st : store) : NoDup (fst (get_students st)).
Proof.
  unfold get_students. destruct (load_data st) as [df st']. simpl.
  apply sorted_NoDup, NoDup_filter, unique_NoDup.
Qed.

Lemma get_students_Sorted (st : store) : Sorted ascending (fst (get_students st)).
Proof.
  unfold get_students. destruct (load_data st) as [df st']. simpl.
  apply sorted_Sorted.
Qed.

Lemma validate_student_name_blank (name : string) :
  validate_student_name name = negb (Text.blank name).
Proof.
  unfold validate_student_name. rewrite TextFacts.nonblank_blank.
  destruct (String.eqb_spec name "") as [->|N]; reflexivity.
Qed.

Lemma registerStudent_valid (n : string) (st : store) :
  Text.blank n = false ->
  registerStudent n st
  = (if fst (add_student (Text.strip n) st) then Added else AlreadyExists,
     snd (add_student (Text.strip n) st)).
Proof.
  intros B. unfold registerStudent. rewrite validate_student_name_blank, B. simpl.
  now destruct (add_student (Text.strip n) st).
Qed.

(** ** What is loaded *)

Lemma read_cell_text (s t : string) : read_cell s = Str t -> s = t /\ Text.isna t = false.
Proof.
  unfold read_cell. destruct (Text.isna s) eqn:E; [discriminate|].
  intros H. inversion H. subst. auto.
Qed.

Lemma loaded_cells (st : store) (r : row cell) (s : string) :
  In r (loaded st) ->
  Student_Name r = Str s \/ Date r = Str s \/ Time r = Str s \/ Status r = Str s
  \/ In (Str s) (others r) ->
  Text.isna s = false.
Proof.
  intros I H. destruct (loaded_read st r I) as [n [line ->]].
  unfold read_row in H. cbn [Student_Name Date Time Status others] in H.
  destruct H as [H|[H|[H|[H|H]]]]; try (apply read_cell_text in H; tauto).
  apply in_map_iff in H as [x [H _]]. apply read_cell_text in H. tauto.
Qed.

Lemma dated_loaded (st : store) :
  dated (loaded st) = filter (fun r => notna (Date r)) (loaded st).
Proof.
  unfold dated. apply filter_ext_in. intros r I.
  destruct (Date r) as [|d] eqn:D; [reflexivity|]. simpl.
  assert (N : Text.isna d = false) by (apply (loaded_cells st r d I); auto).
  destruct (String.eqb_spec d "") as [->|]; [discriminate N|reflexivity].
Qed.

(** ** The aggregator *)

Lemma filter_twice {A : Type} (p q : A -> bool) (l : list A) :
  filter q (filter p l) = filter (fun a => p a && q a) l.
Proof.
  induction l as [|a t IH]; simpl; [reflexivity|].
  destruct (p a); simpl; [destruct (q a); now rewrite IH | exact IH].
Qed.

Lemma length_filter_fst {A B : Type} (p : A -> bool) (l : list (A * B)) :
  List.length (filter (fun ab => p (fst ab)) l) = List.length (filter p (map fst l)).
Proof.
  induction l as [|x l IH]; simpl; [reflexivity|].
  destruct (p (fst x)); simpl; now rewrite IH.
Qed.


Lemma filter_filter_length {A : Type} (p q : A -> bool) (l : list A) :
  List.length (filter p (filter q l)) = List.length (filter (fun a => q a && p a) l).
Proof.
  induction l as [|a t IH]; simpl; [reflexivity|].
  destruct (q a); simpl; [destruct (p a); simpl; now rewrite IH | exact IH].
Qed.

Lemma filter_length_ext {A : Type} (p q : A -> bool) (l : list A) :
  (forall a, p a = q a) -> List.length (filter p l) = List.length (filter q l).
Proof. intros H. now rewrite (filter_ext p q H). Qed.

Lemma cell_is_notna (s : string) (c : cell) : cell_is s c = true -> notna c = true.
Proof. destruct c; [discriminate|reflexivity]. Qed.

Lemma group_size_keyed (name status : string) (l : list (row cell)) :
  group_size name status (filter (fun r => notna (Student_Name r) && notna (Status r)) l)
  = group_size name status l.
Proof.
  unfold group_size. rewrite filter_filter_length. apply filter_length_ext. intros r.
  destruct (cell_is name (Student_Name r)) eqn:E1; [|now rewrite andb_false_r].
  destruct (cell_is status (Status r)) eqn:E2; [|now rewrite andb_false_r].
  now rewrite (cell_is_notna _ _ E1), (cell_is_notna _ _ E2).
Qed.

Lemma stats_table_In (l : list (row cell)) (s : stat) :
  In s (stats_table l) ->
  Present s = group_size (student s) "Present" l
  /\ Absent s = group_size (student s) "Absent" l
  /\ Attendance s = percentage (Present s) (Absent s).
Proof.
  unfold stats_table. destruct l as [|r0 t]; [intros []|].
  unfold groupby_size_unstack. rewrite map_map, in_map_iff.
  intros [name [<- _]]. cbn [student Present Absent Attendance].
  now rewrite !group_size_keyed.
Qed.

Lemma stats_table_students (l : list (row cell)) (s : stat) :
  In s (stats_table l) ->
  exists r, In r l /\ Student_Name r = Str (student s) /\ notna (Status r) = true.
Proof.
  unfold stats_table. destruct l as [|r0 t]; [intros []|].
  unfold groupby_size_unstack. rewrite map_map, in_map_iff.
  intros [name [<- I]]. cbn [student].
  apply sorted_In, unique_In, dropna_In, in_map_iff in I.
  destruct I as [r [E I]]. apply filter_In in I as [I K].
  apply andb_prop in K as [_ K]. eauto.
Qed.


Lemma percentage_Some (present absent : nat) :
  0 < present + absent ->
  percentage present absent
  = Some (Binary64.mul (Binary64.div (Binary64.of_nat present)
                                     (Binary64.of_nat (present + absent)))
                       (Binary64.of_nat 100)).
Proof.
  intros H. unfold percentage.
  destruct (present + absent =? 0) eqn:E; [|reflexivity].
  apply Nat.eqb_eq in E. lia.
Qed.

Section PercentageFacts.
Import Binary64 Binary64Facts.
Local Open Scope Q_scope.



End PercentageFacts.


Lemma month_is_range (month : Z) (t : option timestamp) :
  (month < 1 \/ 12 < month)%Z -> month_is month t = false.
Proof.
  intros H. destruct t as [[y m d]|]; [|reflexivity]. simpl.
  apply Z.eqb_neq. destruct m; simpl; lia.
Qed.

Lemma filter_none {A : Type} (p : A -> bool) (l : list A) :
  forallb (fun a => negb (p a)) l = true -> filter p l = [].
Proof.
  induction l as [|a t IH]; simpl; [reflexivity|].
  intros H. apply andb_prop in H as [H1 H2]. apply negb_true_iff in H1.
  rewrite H1. auto.
Qed.

(** ** Import and export *)

Lemma canonical_NaN : canonical NaN.
Proof. reflexivity. Qed.

Lemma canonical_read (s : string) : canonical (read_cell s).
Proof. apply reread_read. Qed.

Lemma fit_exact {A : Type} (d : A) (n : nat) (l : list A) :
  List.length l = n -> fit d n l = l.
Proof.
  intros <-. unfold fit. rewrite firstn_app, firstn_all, Nat.sub_diag. simpl.
  apply app_nil_r.
Qed.

Lemma fit_length {A : Type} (d : A) (n : nat) (l : list A) :
  List.length (fit d n l) = n.
Proof.
  unfold fit. rewrite length_firstn, length_app, repeat_length. lia.
Qed.

Lemma map_canonical (l : list cell) :
  Forall canonical l -> map read_cell (map write_cell l) = l.
Proof.
  induction 1 as [|c t H _ IH]; simpl; [reflexivity|].
  rewrite IH. f_equal. exact H.
Qed.

Lemma reload_canonical (n : nat) (r : row cell) : canonical_row n r -> reload n r = r.
Proof.
  destruct r as [a b c d o]. intros (Ha & Hb & Hc & Hd & Ho & Hn). simpl in *.
  unfold reload, read_row, write_row. simpl.
  rewrite fit_exact by now rewrite length_map.
  rewrite (map_canonical _ Ho).
  unfold canonical, reread in Ha, Hb, Hc, Hd. now rewrite Ha, Hb, Hc, Hd.
Qed.

Lemma read_row_canonical (n : nat) (line : row string) : canonical_row n (read_row n line).
Proof.
  unfold canonical_row, read_row. simpl.
  repeat split; try apply canonical_read.
  - apply Forall_map, Forall_forall. intros s _. apply canonical_read.
  - now rewrite length_map, fit_length.
Qed.

Lemma loaded_canonical (st : store) (r : row cell) :
  In r (loaded st) ->
  canonical_row (List.length (extra_columns (fst (load_data st)))) r.
Proof.
  destruct st as [f|]; unfold loaded; simpl; [|tauto].
  rewrite in_map_iff. intros [line [<- _]]. apply read_row_canonical.
Qed.

Lemma reindex_canonical (from to : list string) (cells : list cell) :
  Forall canonical cells -> Forall canonical (reindex from cells to).
Proof.
  intros H. unfold reindex. apply Forall_map, Forall_forall. intros c _.
  destruct (index_of c from) as [i|]; [|apply canonical_NaN].
  destruct (nth_in_or_default i cells NaN) as [I | ->]; [|apply canonical_NaN].
  now apply (proj1 (Forall_forall _ _) H).
Qed.

Lemma realign_canonical (n : nat) (from to : list string) (r : row cell) :
  canonical_row n r -> canonical_row (List.length to) (realign from to r).
Proof.
  intros (Ha & Hb & Hc & Hd & Ho & _). unfold canonical_row, realign. simpl.
  repeat split; auto.
  - now apply reindex_canonical.
  - unfold reindex. now rewrite length_map.
Qed.

Lemma field_canonical (t : table) (c : string) (line : list string) :
  canonical (field t c line).
Proof.
  unfold field. destruct (index_of c (header t)); [apply canonical_read|apply canonical_NaN].
Qed.

Lemma frame_of_table_canonical (t : table) (r : row cell) :
  In r (rows (frame_of_table t)) ->
  canonical_row (List.length (extra_columns (frame_of_table t))) r.
Proof.
  unfold frame_of_table. simpl. rewrite in_map_iff. intros [line [<- _]].
  unfold canonical_row. simpl. repeat split; try apply field_canonical.
  - apply Forall_map, Forall_forall. intros c _. apply field_canonical.
  - now rewrite length_map.
Qed.

(** Saving a frame of canonical rows and loading it gives the frame. *)
Lemma load_save_canonical (df : frame) (st : store) :
  (forall r, In r (rows df) -> canonical_row (List.length (extra_columns df)) r) ->
  fst (load_data (save_data df st)) = df.
Proof.
  intros H. destruct df as [cols l]. unfold save_data. simpl in *.
  unfold read_csv, to_csv. simpl. f_equal. rewrite map_map.
  rewrite <- (map_id l) at 2. apply map_ext_in. intros r I.
  now apply (reload_canonical _ _ (H r I)).
Qed.

Lemma concat_canonical (a b : frame) :
  (forall r, In r (rows a) -> canonical_row (List.length (extra_columns a)) r) ->
  (forall r, In r (rows b) -> canonical_row (List.length (extra_columns b)) r) ->
  forall r, In r (rows (concat a b)) ->
            canonical_row (List.length (extra_columns (concat a b))) r.
Proof.
  intros Ha Hb r. rewrite rows_concat, in_app_iff, !in_map_iff.
  intros [[q [<- I]]|[q [<- I]]]; eapply realign_canonical; eauto.
Qed.

Lemma import_csv_mismatch (t : table) (st : store) :
  has_fields t = false ->
  import_csv (Parsed t) st = ((false, "CSV schema mismatch."), st).
Proof. intros H. unfold import_csv. fold (has_fields t). now rewrite H. Qed.

Lemma import_csv_success (t : table) (st : store) :
  has_fields t = true ->
  fst (import_csv (Parsed t) st) = (true, "Import successful.")
  /\ fst (load_data (snd (import_csv (Parsed t) st)))
     = drop_duplicates (concat (fst (load_data st)) (frame_of_table t)).
Proof.
  intros H. unfold import_csv. fold (has_fields t). rewrite H.
  destruct (load_data st) as [orig st'] eqn:L. simpl fst at 1. split; [reflexivity|].
  cbn [snd fst]. apply load_save_canonical.
  intros r I. unfold drop_duplicates in I |- *. cbn [rows extra_columns] in I |- *.
  apply unique_In in I. apply concat_canonical in I; [exact I| |].
  - intros q Iq. replace orig with (fst (load_data st)) in * by now rewrite L.
    now apply loaded_canonical.
  - apply frame_of_table_canonical.
Qed.

Lemma has_fields_incl (t : table) : has_fields t = true <-> incl CSV_FIELDS (header t).
Proof.
  unfold has_fields, incl, mem. rewrite forallb_forall.
  split; intros H c I; specialize (H c I).
  - apply existsb_exists in H as [d [Id E]]. apply String.eqb_eq in E. now subst.
  - apply existsb_exists. exists c. split; [exact H|apply String.eqb_refl].
Qed.

Lemma index_of_lt (c : string) (cols : list string) (i : nat) :
  index_of c cols = Some i -> i < List.length cols.
Proof.
  revert i. induction cols as [|d t IH]; simpl; intros i H; [discriminate|].
  destruct (d =? c)%string.
  - inversion H. lia.
  - destruct (index_of c t) as [j|]; [|discriminate].
    inversion H. specialize (IH j eq_refl). lia.
Qed.

Lemma reindex_same (cols : list string) (cells : list cell) :
  NoDup cols -> List.length cells = List.length cols -> reindex cols cells cols = cells.
Proof.
  intros N. revert cells. induction N as [|c t NI N IH]; intros cells L.
  - destruct cells; [reflexivity|discriminate].
  - destruct cells as [|x cells]; [discriminate|]. simpl in L.
    unfold reindex. simpl. rewrite String.eqb_refl. f_equal.
    etransitivity; [|apply (IH cells); lia]. unfold reindex.
    apply map_ext_in. intros c' I.
    destruct (String.eqb_spec c c') as [->|D]; [contradiction|].
    destruct (index_of c' t); reflexivity.
Qed.

Lemma mem_In (c : string) (cols : list string) : mem c cols = true <-> In c cols.
Proof.
  unfold mem. rewrite existsb_exists. split.
  - intros [d [I E]]. apply String.eqb_eq in E. now subst.
  - intros I. exists c. split; [exact I|apply String.eqb_refl].
Qed.

Lemma filter_all {A : Type} (p : A -> bool) (l : list A) :
  (forall a, In a l -> p a = true) -> filter p l = l.
Proof.
  intros H. apply forallb_filter_id. now apply forallb_forall.
Qed.

Lemma NoDup_app_apart {A : Type} (l l' : list A) (a : A) :
  NoDup (l ++ l') -> In a l -> ~ In a l'.
Proof.
  induction l as [|b t IH]; simpl; intros N I I'; [contradiction|].
  inversion N as [|? ? NI N']; subst. destruct I as [->|I].
  - apply NI. apply in_or_app. now right.
  - now apply IH.
Qed.

Lemma index_of_fields (c : string) (cols : list string) :
  mem c CSV_FIELDS = false ->
  index_of c (CSV_FIELDS ++ cols) = option_map (Nat.add 4) (index_of c cols).
Proof.
  unfold mem, CSV_FIELDS. cbn [existsb app index_of]. rewrite !orb_false_iff.
  intros (H1 & H2 & H3 & H4 & _).
  rewrite (String.eqb_sym "Student Name"), (String.eqb_sym "Date"),
    (String.eqb_sym "Time"), (String.eqb_sym "Status"), H1, H2, H3, H4.
  destruct (index_of c cols); reflexivity.
Qed.

Lemma read_nth_written (i : nat) (cells : list cell) :
  Forall canonical cells -> read_cell (nth i (map write_cell cells) "") = nth i cells NaN.
Proof.
  intros H. change "" with (write_cell NaN). rewrite map_nth.
  destruct (nth_in_or_default i cells NaN) as [I | ->]; [|reflexivity].
  exact (proj1 (Forall_forall _ _) H _ I).
Qed.

(** A frame of canonical rows under distinct columns is read back from
    the table that [to_csv] writes for it. *)
Lemma frame_of_table_written (df : frame) :
  NoDup (CSV_FIELDS ++ extra_columns df) ->
  (forall r, In r (rows df) -> canonical_row (List.length (extra_columns df)) r) ->
  frame_of_table (table_of_file (to_csv df)) = df.
Proof.
  destruct df as [cols l]. cbn [extra_columns rows]. intros ND C.
  assert (NE : NoDup cols) by (apply NoDup_app_remove_l in ND; exact ND).
  assert (D : forall c, In c cols -> mem c CSV_FIELDS = false).
  { intros c I. apply not_true_is_false. intros M. apply mem_In in M.
    exact (NoDup_app_apart _ _ c ND M I). }
  assert (X : filter (fun c => negb (mem c CSV_FIELDS)) (CSV_FIELDS ++ cols) = cols).
  { change (filter (fun c => negb (mem c CSV_FIELDS)) cols = cols).
    apply filter_all. intros c I. now rewrite (D c I). }
  unfold frame_of_table, table_of_file, to_csv. cbn [header lines extra_columns rows].
  rewrite X. f_equal. rewrite !map_map. rewrite <- (map_id l) at 2.
  apply map_ext_in. intros [a b c d o] I.
  destruct (C _ I) as (Ha & Hb & Hc & Hd & Ho & Hn). cbn [Student_Name Date Time Status others] in *.
  unfold write_row. cbn [Student_Name Date Time Status others app].
  f_equal; try (unfold field; cbn; assumption).
  etransitivity; [|apply (reindex_same cols o NE Hn)].
  unfold reindex. apply map_ext_in. intros c0 I0.
  unfold field. cbn [header]. rewrite (index_of_fields c0 cols (D c0 I0)).
  destruct (index_of c0 cols) as [i|]; [|reflexivity].
  cbn [option_map]. change (4 + i) with (S (S (S (S i)))). cbn [nth].
  now apply read_nth_written.
Qed.

Lemma concat_empty_frame (df : frame) :
  NoDup (extra_columns df) ->
  (forall r, In r (rows df) -> List.length (others r) = List.length (extra_columns df)) ->
  concat empty_frame df = df.
Proof.
  destruct df as [cols l]. cbn [extra_columns rows]. intros N L.
  unfold concat, empty_frame. cbn [extra_columns rows map app mem existsb negb].
  rewrite (filter_all (fun _ => true) cols) by reflexivity.
  f_equal. rewrite <- (map_id l) at 2. apply map_ext_in. intros [a b c d o] I.
  unfold realign. cbn [Student_Name Date Time Status others]. f_equal.
  apply reindex_same; [exact N|]. exact (L _ I).
Qed.

(** What was exported, read into an empty frame, is what was loaded. *)
Lemma export_import (st st0 : store) :
  NoDup (CSV_FIELDS ++ extra_columns (fst (load_data st))) ->
  fst (load_data st0) = empty_frame ->
  has_fields (fst (export_csv st)) = true
  /\ concat (fst (load_data st0)) (frame_of_table (fst (export_csv st)))
     = fst (load_data st).
Proof.
  intros ND E.
  assert (C : forall r, In r (loaded st) ->
                        canonical_row (List.length (extra_columns (fst (load_data st)))) r)
    by apply loaded_canonical.
  unfold export_csv, loaded in *. destruct (load_data st) as [df st'].
  cbn [fst] in *. split; [reflexivity|].
  rewrite E, (frame_of_table_written df ND C).
  apply concat_empty_frame.
  - now apply NoDup_app_remove_l in ND.
  - intros r I. now destruct (C r I) as (_ & _ & _ & _ & _ & L).
Qed.

(** ** Deletion *)

Lemma four_fields_reload_read (st : store) (n : nat) (r : row cell) :
  In r (loaded st) -> four_fields (reload n r) = four_fields r.
Proof. apply (four_fields_reload_loaded st n [] []). Qed.

(** The rows seen after a deletion are the rows seen before it that do
    not match, with their four fields as they were and in their order. *)
Lemma delete_loaded (n d t s : cell) (st : store) :
  map four_fields (loaded (delete_attendance_record n d t s st))
  = map four_fields (filter (fun r => negb (matches n d t s r)) (loaded st)).
Proof.
  unfold delete_attendance_record.
  destruct (load_data st) as [df st'] eqn:L.
  assert (Hdf : rows df = loaded st) by (unfold loaded; now rewrite L).
  rewrite loaded_save. cbn [rows extra_columns]. rewrite map_map, Hdf.
  apply map_ext_in. intros r I. apply filter_In in I as [I _].
  now apply (four_fields_reload_read st).
Qed.

Lemma eq_value_Str (s : string) (c : cell) : eq_value (Str s) c = true <-> c = Str s.
Proof.
  destruct c as [|u]; simpl; [split; discriminate|].
  rewrite String.eqb_eq. split; congruence.
Qed.

(** ** The columns of a store *)

Lemma import_csv_store (t : table) (st : store) :
  has_fields t = true ->
  snd (import_csv (Parsed t) st)
  = Some (to_csv (drop_duplicates (concat (fst (load_data st)) (frame_of_table t)))).
Proof.
  intros H. unfold import_csv. rewrite H. now destruct (load_data st).
Qed.

Lemma NoDup_fields_iff (cols : list string) :
  NoDup (CSV_FIELDS ++ cols)
  <-> NoDup cols /\ (forall c, In c cols -> mem c CSV_FIELDS = false).
Proof.
  split.
  - intros N. split; [now apply NoDup_app_remove_l in N|].
    intros c I. apply not_true_is_false. intros M. apply mem_In in M.
    exact (NoDup_app_apart _ _ c N M I).
  - intros [N D]. apply NoDup_app; [|exact N|].
    + unfold CSV_FIELDS. repeat constructor; simpl; intuition discriminate.
    + intros c I I'. apply mem_In in I. rewrite (D c I') in I. discriminate.
Qed.

Lemma columns_save (df : frame) (st : store) : columns (save_data df st) = extra_columns df.
Proof. reflexivity. Qed.

Lemma columns_again (st : store) : columns (snd (load_data st)) = columns st.
Proof. unfold columns. now rewrite load_data_again. Qed.

Lemma columns_one_row (df : frame) (n d t s : string) :
  extra_columns (concat df (one_row n d t s)) = extra_columns df.
Proof. unfold concat. simpl. apply app_nil_r. Qed.

Lemma columns_add_student (name : string) (st : store) :
  columns (snd (add_student name st)) = columns st.
Proof.
  unfold add_student, columns at 2. destruct (load_data st) as [df st'] eqn:L.
  destruct (negb _); cbn [snd fst].
  - now rewrite columns_save, columns_one_row.
  - replace st' with (snd (load_data st)) by now rewrite L.
    rewrite columns_again. unfold columns. now rewrite L.
Qed.

Lemma columns_register (name : string) (st : store) :
  columns (snd (registerStudent name st)) = columns st.
Proof.
  unfold registerStudent. destruct (validate_student_name name); [|reflexivity].
  pose proof (columns_add_student (Text.strip name) st) as H.
  now destruct (add_student (Text.strip name) st).
Qed.

Lemma columns_mark (now : clock) (name status : string) (st : store) :
  columns (snd (mark_attendance now name status st)) = columns st.
Proof.
  unfold mark_attendance, columns at 2. destruct (load_data st) as [df st'] eqn:L.
  destruct (existsb _ (rows df)); cbn [snd fst].
  - replace st' with (snd (load_data st)) by now rewrite L.
    rewrite columns_again. unfold columns. now rewrite L.
  - now rewrite columns_save, columns_one_row.
Qed.

Lemma columns_delete (n d t s : cell) (st : store) :
  columns (delete_attendance_record n d t s st) = columns st.
Proof.
  unfold delete_attendance_record, columns at 2. destruct (load_data st) as [df st'].
  reflexivity.
Qed.

Lemma columns_run (o : operation) (st : store) :
  is_import o = false -> columns (run o st) = columns st.
Proof.
  destruct o; simpl; intros H; try discriminate.
  - apply columns_register.
  - apply columns_mark.
  - apply columns_delete.
Qed.

Lemma columns_import (t : table) (st : store) :
  has_fields t = true ->
  columns (snd (import_csv (Parsed t) st))
  = columns st
    ++ filter (fun c => negb (mem c (columns st)))
              (filter (fun c => negb (mem c CSV_FIELDS)) (header t)).
Proof. intros H. now rewrite (import_csv_store t st H). Qed.

Lemma columns_distinct_run (o : operation) (st : store) :
  readable o ->
  NoDup (CSV_FIELDS ++ columns st) -> NoDup (CSV_FIELDS ++ columns (run o st)).
Proof.
  intros R N. destruct (is_import o) eqn:I.
  - destruct o as [| |[t|e]|]; try discriminate; cbn [run readable] in *; [|exact N].
    destruct (has_fields t) eqn:H; [|now rewrite (import_csv_mismatch t st H)].
    rewrite (columns_import t st H).
    apply NoDup_fields_iff in N as [N D]. apply NoDup_fields_iff. split.
    + apply NoDup_app; [exact N|now apply NoDup_filter, NoDup_filter|].
      intros c Ic F. apply filter_In in F as [_ F].
      apply negb_true_iff in F. apply mem_In in Ic. congruence.
    + intros c Ic. apply in_app_or in Ic as [Ic|Ic]; [now apply D|].
      apply filter_In in Ic as [Ic _]. apply filter_In in Ic as [_ Ic].
      now apply negb_true_iff in Ic.
  - now rewrite (columns_run o st I).
Qed.

Lemma columns_distinct_run_all (ops : list operation) (st : store) :
  Forall readable ops ->
  NoDup (CSV_FIELDS ++ columns st) -> NoDup (CSV_FIELDS ++ columns (run_all ops st)).
Proof.
  intros F. revert st. induction F as [|o ops R _ IH]; intros st N; simpl; [exact N|].
  apply IH. now apply columns_distinct_run.
Qed.

(** ** Names that the reader takes for a missing value

    A name among [Text.na_values] is written as it is and read back as
    [NaN], which equals no name: it is registered and marked again and
    again, and never listed. *)

Example registerStudent_NA :
  let st1 := snd (registerStudent "NA" None) in
  let st2 := snd (registerStudent "NA" st1) in
  fst (registerStudent "NA" None) = Added
  /\ fst (registerStudent "NA" st1) = Added
  /\ List.length (loaded st2) = 2
  /\ fst (get_students st2) = [].
Proof. repeat split. Qed.

Example mark_attendance_NA :
  let st1 := snd (mark_attendance Sample.morning "NA" "Present" None) in
  let st2 := snd (mark_attendance Sample.evening "NA" "Present" st1) in
  fst (mark_attendance Sample.evening "NA" "Present" st1) = true
  /\ map four_fields (loaded st2)
     = [ (NaN, Str "2024-01-05", Str "09:00:00", Str "Present");
         (NaN, Str "2024-01-05", Str "17:30:00", Str "Present") ].
Proof. repeat split. Qed.

(* ================================================================== *)
(** * The properties of the specification                              *)
(* ================================================================== *)

(** ** C1: one mark per student and day *)




(** ** C2: the importer *)

(** C2, as stated, fails on a file with a fifth column.  The specification
    has such a column ignored and rows equal on the four fields collapsed;
    the program keeps the column in the store and keeps both rows, which
    differ in that column only. *)
Lemma import_keeps_additional_columns :
  let after := fst (load_data (snd (import_csv (Parsed Sample.noted) None))) in
  text_table Sample.noted = true
  /\ incl CSV_FIELDS (header Sample.noted)
  /\ extra_columns after = [ "Note" ]
  /\ List.length (rows after) = 2
  /\ List.length (importRows_spec Sample.noted None) = 1
  /\ map project (rows after) <> importRows_spec Sample.noted None.
Proof.
  split; [reflexivity|]. split; [|repeat split; discriminate].
  intros c I. apply in_or_app. now left.
Qed.

Lemma distinct_NoDup (l : list string) : distinct l = true -> NoDup l.
Proof.
  induction l as [|c t IH]; simpl; intros H; constructor.
  - apply andb_prop in H as [M _]. intros I. apply mem_In in I.
    rewrite I in M. discriminate.
  - apply andb_prop in H as [_ D]. auto.
Qed.

Lemma text_table_header (t : table) : text_table t = true -> NoDup (header t).
Proof.
  unfold text_table, text_header. intros H.
  apply andb_prop in H as [H _]. apply andb_prop in H as [H _]. now apply distinct_NoDup.
Qed.

Lemma text_store_columns (st : store) :
  text_store st = true -> NoDup (CSV_FIELDS ++ extra_columns (fst (load_data st))).
Proof.
  destruct st as [f|]; simpl.
  - unfold text_file, text_header. intros H.
    apply andb_prop in H as [H _]. apply andb_prop in H as [H _]. now apply distinct_NoDup.
  - intros _. now apply distinct_NoDup.
Qed.

Lemma index_of_Some (c : string) (cols : list string) (i : nat) :
  index_of c cols = Some i -> nth_error cols i = Some c.
Proof.
  revert i. induction cols as [|d t IH]; simpl; intros i H; [discriminate|].
  destruct (String.eqb_spec d c) as [->|N].
  - inversion H. reflexivity.
  - destruct (index_of c t) as [j|]; [|discriminate]. inversion H. simpl. now apply IH.
Qed.

Lemma index_of_In (c : string) (cols : list string) (i : nat) :
  index_of c cols = Some i -> In c cols.
Proof. intros H. apply index_of_Some in H. eapply nth_error_In; eauto. Qed.

Lemma index_of_None (c : string) (cols : list string) :
  index_of c cols = None <-> ~ In c cols.
Proof.
  induction cols as [|d t IH]; simpl; [tauto|].
  destruct (String.eqb_spec d c) as [->|N].
  - split; [discriminate|]. intros H. exfalso. apply H. now left.
  - destruct (index_of c t) as [j|]; simpl.
    + split; [discriminate|]. intros H. exfalso.
      assert (X : ~ In c t) by tauto. apply IH in X. discriminate.
    + split; [|reflexivity]. intros _ [E|I]; [now apply N|]. now apply (proj1 IH).
Qed.

Lemma nth_error_index_of (c : string) (cols : list string) (i : nat) :
  NoDup cols -> nth_error cols i = Some c -> index_of c cols = Some i.
Proof.
  intros N. revert i. induction N as [|d t NI N IH]; intros i H.
  - destruct i; discriminate.
  - destruct i as [|i]; simpl in *.
    + inversion H. subst. now rewrite String.eqb_refl.
    + destruct (String.eqb_spec d c) as [->|D].
      * exfalso. apply NI. eapply nth_error_In; eauto.
      * now rewrite (IH i H).
Qed.

Lemma nth_reindex (from to : list string) (cells : list cell) (c : string) (j : nat) :
  index_of c to = Some j ->
  nth j (reindex from cells to) NaN
  = match index_of c from with
    | Some i => nth i cells NaN
    | None => NaN
    end.
Proof.
  intros H. apply index_of_Some in H. unfold reindex. apply nth_error_nth.
  now apply (map_nth_error
               (fun c => match index_of c from with
                         | Some i => nth i cells NaN
                         | None => NaN
                         end)).
Qed.

Lemma at_column_realign (from to : list string) (r : row cell) (c : string) :
  incl from to -> at_column to (realign from to r) c = at_column from r c.
Proof.
  intros I. unfold at_column, realign. cbn [Student_Name Date Time Status others].
  destruct (c =? "Student Name")%string; [reflexivity|].
  destruct (c =? "Date")%string; [reflexivity|].
  destruct (c =? "Time")%string; [reflexivity|].
  destruct (c =? "Status")%string; [reflexivity|].
  destruct (index_of c to) as [j|] eqn:E.
  - now apply nth_reindex.
  - apply index_of_None in E.
    destruct (index_of c from) as [i|] eqn:F; [|reflexivity].
    exfalso. apply E, I. now apply index_of_In in F.
Qed.

(** The row that [frame_of_table] makes of a line. *)
Lemma frame_of_table_rows (t : table) (r : row cell) :
  In r (rows (frame_of_table t))
  <-> exists line,
      In line (lines t)
      /\ r = Row (field t "Student Name" line) (field t "Date" line)
                 (field t "Time" line) (field t "Status" line)
                 (map (fun c => field t c line) (extra_columns (frame_of_table t))).
Proof.
  unfold frame_of_table. cbn [rows extra_columns]. rewrite in_map_iff.
  split; intros [line [A B]]; exists line; split; auto.
Qed.

Lemma at_column_line (t : table) (line : list string) (c : string) :
  at_column (extra_columns (frame_of_table t))
            (Row (field t "Student Name" line) (field t "Date" line)
                 (field t "Time" line) (field t "Status" line)
                 (map (fun c => field t c line) (extra_columns (frame_of_table t)))) c
  = field t c line.
Proof.
  unfold at_column. cbn [Student_Name Date Time Status others].
  destruct (String.eqb_spec c "Student Name") as [->|N1]; [reflexivity|].
  destruct (String.eqb_spec c "Date") as [->|N2]; [reflexivity|].
  destruct (String.eqb_spec c "Time") as [->|N3]; [reflexivity|].
  destruct (String.eqb_spec c "Status") as [->|N4]; [reflexivity|].
  destruct (index_of c (extra_columns (frame_of_table t))) as [j|] eqn:E.
  - apply index_of_Some in E. apply nth_error_nth.
    now apply (map_nth_error (fun c => field t c line)).
  - apply index_of_None in E. unfold field.
    destruct (index_of c (header t)) as [i|] eqn:F; [|reflexivity].
    exfalso. apply E. unfold frame_of_table. cbn [extra_columns].
    apply filter_In. split; [now apply index_of_In in F|].
    apply negb_true_iff, not_true_is_false. intros M. apply mem_In in M.
    simpl in M. intuition congruence.
Qed.

Lemma field_holds_line (cols : list string) (r : row cell) (t : table)
      (line : list string) :
  NoDup (header t) ->
  (forall c, at_column cols r c = field t c line) -> holds_line cols r t line.
Proof.
  intros N H. split.
  - intros i c E. rewrite H. unfold field. now rewrite (nth_error_index_of c _ i N E).
  - intros c E. rewrite H. unfold field. apply index_of_None in E. now rewrite E.
Qed.

Lemma realign_length (from to : list string) (r : row cell) :
  List.length (others (realign from to r)) = List.length to.
Proof. unfold realign, reindex. cbn [others]. apply length_map. Qed.

Lemma incl_concat_l (a b : frame) : incl (extra_columns a) (extra_columns (concat a b)).
Proof. intros c I. unfold concat. cbn [extra_columns]. apply in_or_app. now left. Qed.

Lemma incl_concat_r (a b : frame) : incl (extra_columns b) (extra_columns (concat a b)).
Proof.
  intros c I. unfold concat. cbn [extra_columns]. apply in_or_app.
  destruct (mem c (extra_columns a)) eqn:M.
  - left. now apply mem_In.
  - right. apply filter_In. split; [exact I|]. now rewrite M.
Qed.

Lemma mem_app (c : string) (l l' : list string) : mem c (l ++ l') = mem c l || mem c l'.
Proof. unfold mem. apply existsb_app. Qed.

(** C2, amended: for an uploaded table and a store of text (every field
    text or a missing value, every line with a field for each column,
    every column with a name of its own), importRows answers "CSV schema
    mismatch." and leaves the store untouched exactly when one of the
    four fields is not among the columns of the file.  Otherwise it
    reports success, and the store then loads as the union of its former
    rows and the rows of the file, without repetition, over all columns:
    the columns of the file that the store did not have are added to it;
    every former row and every line of the file is held by a row, with a
    missing value in the columns it did not have; every row holds a
    former row or a line of the file; and no row occurs twice, two rows
    being the same when they agree in every column.  When neither the
    store nor the file has a column besides the four fields this is the
    union of the rows, those equal on the four fields collapsed to one.
    A file that the reader could not read leaves the store untouched,
    with the answer "Import failed". *)
Theorem import_csv_merges (t : table) (st : store) :
  text_table t = true ->
  text_store st = true ->
  let before := fst (load_data st) in
  let result := import_csv (Parsed t) st in
  let after := fst (load_data (snd result)) in
  (~ incl CSV_FIELDS (header t) -> result = ((false, "CSV schema mismatch."), st))
  /\ (incl CSV_FIELDS (header t) ->
      fst result = (true, "Import successful.")
      /\ extra_columns after
         = extra_columns before
           ++ filter (fun c => negb (mem c (CSV_FIELDS ++ extra_columns before)))
                     (header t)
      /\ NoDup (rows after)
      /\ (forall r, In r (rows after) ->
                    List.length (others r) = List.length (extra_columns after))
      /\ (forall q, In q (rows before) ->
                    exists r, In r (rows after)
                              /\ holds_row (extra_columns after) r (extra_columns before) q)
      /\ (forall line, In line (lines t) ->
                       exists r, In r (rows after)
                                 /\ holds_line (extra_columns after) r t line)
      /\ (forall r, In r (rows after) ->
                    (exists q, In q (rows before)
                               /\ holds_row (extra_columns after) r
                                            (extra_columns before) q)
                    \/ (exists line, In line (lines t)
                                     /\ holds_line (extra_columns after) r t line))
      /\ (extra_columns before = [] ->
          (forall c, In c (header t) -> In c CSV_FIELDS) ->
          rows after = importRows_spec t st))
  /\ (forall why, import_csv (Unreadable why) st
                  = ((false, "Import failed: " ++ why)%string, st)).
Proof.
  intros Tt Ts before result after.
  pose proof (text_table_header t Tt) as Nh.
  split; [|split; [|reflexivity]].
  { intros H. apply import_csv_mismatch. apply not_true_is_false.
    intros F. now apply has_fields_incl in F. }
  intros H. apply has_fields_incl in H.
  destruct (import_csv_success t st H) as [R A].
  fold result in R, A. fold before after in A.
  set (up := frame_of_table t) in *.
  assert (Ea : extra_columns after = extra_columns (concat before up)) by now rewrite A.
  assert (Ra : forall r, In r (rows after) <-> In r (rows (concat before up))).
  { intros r. rewrite A. unfold drop_duplicates. cbn [rows]. apply unique_In. }
  assert (Hq : forall q, holds_row (extra_columns after)
                           (realign (extra_columns before) (extra_columns after) q)
                           (extra_columns before) q).
  { intros q c. apply at_column_realign. rewrite Ea. apply incl_concat_l. }
  assert (Hl : forall line,
             holds_line (extra_columns after)
               (realign (extra_columns up) (extra_columns after)
                        (Row (field t "Student Name" line) (field t "Date" line)
                             (field t "Time" line) (field t "Status" line)
                             (map (fun c => field t c line) (extra_columns up))))
               t line).
  { intros line. apply field_holds_line; [exact Nh|]. intros c.
    rewrite at_column_realign; [apply at_column_line|].
    rewrite Ea. apply incl_concat_r. }
  split; [exact R|]. split; [|split; [|split; [|split; [|split; [|split]]]]].
  - rewrite Ea. unfold concat, up, frame_of_table. cbn [extra_columns]. f_equal.
    rewrite filter_twice. apply filter_ext. intros c. now rewrite mem_app, negb_orb.
  - rewrite A. unfold drop_duplicates. cbn [rows]. apply unique_NoDup.
  - intros r I. apply Ra in I. rewrite rows_concat in I. rewrite Ea.
    apply in_app_or in I as [I|I]; apply in_map_iff in I as [q [<- _]];
      apply realign_length.
  - intros q I. exists (realign (extra_columns before) (extra_columns after) q).
    split; [|apply Hq]. apply Ra. rewrite rows_concat, Ea. apply in_or_app. left.
    now apply in_map.
  - intros line I. eexists. split; [|apply (Hl line)].
    apply Ra. rewrite rows_concat, Ea. apply in_or_app. right. apply in_map.
    apply frame_of_table_rows. eauto.
  - intros r I. apply Ra in I. rewrite rows_concat, <- Ea in I.
    apply in_app_or in I as [I|I]; apply in_map_iff in I as [q [<- I]].
    + left. exists q. split; [exact I|apply Hq].
    + right. apply frame_of_table_rows in I as [line [I ->]].
      exists line. split; [exact I|apply Hl].
  - intros E1 E2.
    assert (Eu : extra_columns up = []).
    { unfold up, frame_of_table. cbn [extra_columns]. apply filter_none.
      apply forallb_forall. intros c I. rewrite negb_involutive.
      apply mem_In. now apply E2. }
    rewrite A. unfold drop_duplicates, importRows_spec. cbn [rows]. f_equal.
    rewrite rows_concat. unfold concat. cbn [extra_columns].
    fold before. rewrite E1, Eu. cbn [app filter]. f_equal.
    unfold up, frame_of_table. cbn [rows]. rewrite map_map.
    apply map_ext. intros line. reflexivity.
Qed.

Lemma import_csv_merges_witness :
  import_csv (Parsed Sample.no_status) Sample.registered
  = ((false, "CSV schema mismatch."), Sample.registered)
  /\ fst (import_csv (Parsed Sample.two_marks) Sample.registered)
     = (true, "Import successful.")
  /\ rows (fst (load_data (snd (import_csv (Parsed Sample.two_marks) Sample.registered))))
     = importRows_spec Sample.two_marks Sample.registered.
Proof.
  split.
  - apply (import_csv_merges Sample.no_status Sample.registered); [reflexivity..|].
    intros H. specialize (H "Status"). simpl in H. intuition discriminate.
  - destruct (import_csv_merges Sample.two_marks Sample.registered) as (_ & B & _);
      [reflexivity..|].
    destruct B as (R & _ & _ & _ & _ & _ & _ & S); [intros c I; exact I|].
    split; [exact R|]. apply S; [reflexivity|]. intros c I. exact I.
Defined.

(** ** C3: export, then import *)

(** C3, as stated, fails on a store that has taken a fifth column from an
    imported file: its two rows agree on the four fields and differ in the
    fifth, and after the export and the import into the empty store both
    are there, not one. *)
Lemma export_import_keeps_rows_equal_on_four_fields :
  let st := run (ImportRows (Parsed Sample.noted)) None in
  let result := import_csv (Parsed (fst (export_csv st))) None in
  reachable st
  /\ map four_fields (loaded st)
     = [ (Str "Alice", Str "2024-01-05", Str "09:00:00", Str "Present");
         (Str "Alice", Str "2024-01-05", Str "09:00:00", Str "Present") ]
  /\ fst result = (true, "Import successful.")
  /\ map four_fields (loaded (snd result)) = map four_fields (loaded st)
  /\ List.length (loaded (snd result)) = 2.
Proof.
  split; [|repeat split].
  exists [ ImportRows (Parsed Sample.noted) ]. reflexivity.
Qed.

Lemma export_import_round_trip (st st0 : store) :
  NoDup (CSV_FIELDS ++ extra_columns (fst (load_data st))) ->
  fst (load_data st0) = empty_frame ->
  round_trip st st0.
Proof.
  intros ND E. unfold round_trip. cbv zeta.
  destruct (export_import st st0 ND E) as [H C].
  destruct (import_csv_success _ st0 H) as [R A].
  rewrite C in A.
  split; [exact R|]. split; [exact A|]. split.
  - intros r. unfold loaded at 1. rewrite A. apply unique_count.
  - intros E0 r r' I I' F.
    apply loaded_canonical in I, I'. rewrite E0 in I, I'.
    destruct I as (_ & _ & _ & _ & _ & L), I' as (_ & _ & _ & _ & _ & L').
    destruct r as [a b c d o], r' as [a' b' c' d' o']. simpl in *.
    destruct o, o'; try discriminate. unfold four_fields in F. simpl in F.
    now inversion F.
Qed.

(** C3, amended: let the columns of the store bear distinct names, as
    they do in every frame that the reader returns; then exporting the
    store and importing what was exported into an empty store succeeds,
    and the store then loads as the rows of the original store, in their
    order, with every row that occurs several times kept once: each row
    of the original occurs exactly once, and nothing else occurs.  Two
    rows are the same row when they agree on every column of the store,
    which for a store with the four columns only means on the four
    fields.  Every store that the program reaches from the missing file
    is such a store, when the uploaded tables bear distinct column
    names. *)
Theorem export_import_roundtrip (st0 : store) :
  fst (load_data st0) = empty_frame ->
  (forall st, NoDup (CSV_FIELDS ++ extra_columns (fst (load_data st))) ->
              round_trip st st0)
  /\ (forall ops, Forall readable ops -> round_trip (run_all ops None) st0).
Proof.
  intros E. split.
  - intros st ND. now apply export_import_round_trip.
  - intros ops F. apply export_import_round_trip; [|exact E].
    apply (columns_distinct_run_all ops None F).
    unfold CSV_FIELDS. repeat constructor; simpl; intuition discriminate.
Qed.

Lemma export_import_roundtrip_witness :
  fst (import_csv (Parsed (fst (export_csv Sample.term))) None)
  = (true, "Import successful.")
  /\ List.length (loaded Sample.term) = 7
  /\ List.length (loaded (snd (import_csv (Parsed (fst (export_csv Sample.term))) None))) = 6
  /\ round_trip (run_all [ RegisterStudent "Alice"; ImportRows (Parsed Sample.noted) ] None)
                None.
Proof.
  destruct (export_import_roundtrip None eq_refl) as [A B].
  destruct (A Sample.term) as (R & L & _).
  - unfold CSV_FIELDS. repeat constructor; simpl; intuition discriminate.
  - split; [exact R|]. split; [reflexivity|]. split.
    + unfold loaded. rewrite L. reflexivity.
    + apply B. repeat constructor; simpl; intuition discriminate.
Defined.

(** ** C4: registering a name twice *)

(** C4, as stated, fails in two ways.  The name is trimmed before it is
    stored: after registering [" Bob"] twice the list holds ["Bob"] and
    not [" Bob"].  And on a store that knows the name already, the first
    call answers AlreadyExists, not Added. *)
Lemma registerStudent_twice_as_stated_fails :
  (let st1 := snd (registerStudent " Bob" None) in
   let st2 := snd (registerStudent " Bob" st1) in
   Text.blank " Bob" = false
   /\ fst (get_students st2) = [ "Bob" ]
   /\ count_occ string_dec (fst (get_students st2)) " Bob" = 0)
  /\ (Text.blank "Alice" = false
      /\ fst (registerStudent "Alice" Sample.registered) = AlreadyExists).
Proof. repeat split. Qed.

(** C4, amended: let [n] be a name that is not blank and whose trimmed
    form [t] is text that the reader returns unchanged.  On a store in
    which no row has the student name [t], registerStudent(n) returns
    Added; on any store, a second registerStudent(n) returns
    AlreadyExists and leaves the store as it is, and afterwards
    listStudents() holds [t] exactly once.  listStudents() returns,
    sorted in ascending order and without repetition, the student names
    of the loaded rows that are not missing and not blank. *)
Theorem registerStudent_twice (n : string) (st : store) :
  Text.blank n = false ->
  Text.textual (Text.strip n) = true ->
  let t := Text.strip n in
  let st1 := snd (registerStudent n st) in
  (~ In (Str t) (names (loaded st)) -> fst (registerStudent n st) = Added)
  /\ registerStudent n st1 = (AlreadyExists, st1)
  /\ count_occ string_dec (fst (get_students st1)) t = 1
  /\ NoDup (fst (get_students st1))
  /\ Sorted ascending (fst (get_students st1))
  /\ (forall s, In s (fst (get_students st1))
                <-> In (Str s) (names (loaded st1)) /\ Text.nonblank s = true).
Proof.
  intros B T t st1.
  pose proof (registerStudent_valid n st B) as R. fold t in R.
  assert (E1 : st1 = snd (add_student t st)) by (subst st1; now rewrite R).
  assert (K : In (Str t) (names (loaded st1)))
    by (rewrite E1; now apply add_student_listed).
  assert (S1 : st1 <> None) by (rewrite E1; apply add_student_store).
  split; [|split; [|split; [|split; [|split]]]].
  - intros N. rewrite R. simpl. now rewrite (proj1 (add_student_new t st N)).
  - rewrite (registerStudent_valid n st1 B). fold t.
    rewrite (add_student_known t st1 K). simpl. now rewrite (store_Some_load st1 S1).
  - apply NoDup_count_occ'; [apply get_students_NoDup|].
    apply get_students_In. split; [exact K|].
    subst t. now rewrite TextFacts.nonblank_strip, TextFacts.nonblank_blank, B.
  - apply get_students_NoDup.
  - apply get_students_Sorted.
  - intros s. apply get_students_In.
Qed.

Lemma registerStudent_twice_witness :
  fst (registerStudent "  Bob " None) = Added
  /\ registerStudent "  Bob " (snd (registerStudent "  Bob " None))
     = (AlreadyExists, snd (registerStudent "  Bob " None))
  /\ count_occ string_dec
               (fst (get_students (snd (registerStudent "  Bob " None)))) "Bob" = 1.
Proof.
  destruct (registerStudent_twice "  Bob " None) as (A & B & C & _).
  - reflexivity.
  - reflexivity.
  - split; [|split].
    + apply A. simpl. tauto.
    + exact B.
    + exact C.
Defined.

(** ** C5: the statistics *)



Lemma stamped_loaded (to_datetime : list cell -> list (option timestamp)) (st : store) :
  stamped to_datetime (loaded st) = with_parsed_date to_datetime (loaded st).
Proof. unfold stamped, with_parsed_date. now rewrite dated_loaded. Qed.





(** ** C6: deleting a record *)

(** C6 fails on the code for a row with an empty field.  A row that was
    imported without a time loads with a missing time, which equals no
    value: called with the four fields of that row, with the empty text or
    with the missing value itself for the time, the deletion leaves the
    row in the store.  A placeholder row stays in the same way. *)
Theorem delete_attendance_record_misses_empty_field :
  delete_attendance_record (Str "Alice") (Str "2024-01-05") (Str "") (Str "Present")
                           Sample.timeless = Sample.timeless
  /\ delete_attendance_record (Str "Alice") (Str "2024-01-05") NaN (Str "Present")
                              Sample.timeless = Sample.timeless
  /\ delete_attendance_record (Str "Alice") (Str "") (Str "") (Str "")
                              Sample.registered = Sample.registered.
Proof. repeat split. Qed.

(** ** C7: a month that matches nothing *)

Lemma filter_pair_none {A : Type} (p q : A -> bool) (l : list A) :
  forallb (fun a => negb (p a && q a)) l = true -> filter q (filter p l) = [].
Proof.
  induction l as [|a t IH]; simpl; [reflexivity|].
  intros H. apply andb_prop in H as [H1 H2]. apply negb_true_iff in H1.
  destruct (p a) eqn:P; simpl; [|auto].
  simpl in H1. rewrite H1. auto.
Qed.

(** C7: statsByMonth(month, year) returns the empty table, for every
    store and whatever the date parser makes of the dates, when the month
    is not one of 1 to 12 (13 for instance) or when no row has a parsed
    date in that month and year. *)
Theorem stats_by_month_no_match (to_datetime : list cell -> list (option timestamp))
        (month year : Z) (st : store) :
  (month < 1 \/ 12 < month)%Z
  \/ forallb (fun rt => negb (month_is month (snd rt) && year_is year (snd rt)))
             (stamped to_datetime (loaded st)) = true ->
  fst (attendance_stats_by_month to_datetime month year st) = [].
Proof.
  intros H. unfold attendance_stats_by_month, loaded in *.
  destruct (load_data st) as [df st']. cbn [fst] in *.
  unfold in_month.
  assert (E : filter (fun rt => year_is year (snd rt))
                     (filter (fun rt => month_is month (snd rt))
                             (stamped to_datetime (rows df))) = []).
  { destruct H as [H|H].
    - rewrite (filter_none (fun rt => month_is month (snd rt))); [reflexivity|].
      apply forallb_forall. intros rt _. now rewrite month_is_range.
    - now apply filter_pair_none. }
  now rewrite E.
Qed.

Lemma stats_by_month_no_match_witness :
  fst (attendance_stats_by_month Iso.to_datetime 13 2024 Sample.term) = []
  /\ fst (attendance_stats_by_month Iso.to_datetime 3 2024 Sample.term) = [].
Proof.
  split.
  - apply stats_by_month_no_match. left. lia.
  - apply stats_by_month_no_match. right. reflexivity.
Defined.

(** ** C8: loading *)

Lemma isna_In (s : string) : Text.isna s = true <-> In s Text.na_values.
Proof.
  unfold Text.isna. rewrite existsb_exists. split.
  - intros [t [I E]]. apply String.eqb_eq in E. now subst.
  - intros I. exists s. split; [exact I|apply String.eqb_refl].
Qed.

(** C8, as stated, fails: an empty field is not read as text.  The
    placeholder row that registerStudent writes loads with a missing
    value, not the empty text, for its date, time and status. *)
Lemma load_data_reads_empty_as_missing :
  rows (fst (load_data Sample.registered)) = [ Row (Str "Alice") NaN NaN NaN [] ]
  /\ rows (fst (load_data Sample.registered))
     <> map read_row_as_text [ Row "Alice" "" "" "" [] ].
Proof. split; [reflexivity|discriminate]. Qed.

(** C8, amended: load() creates the file, with the header of the four
    columns and no rows, when it does not exist, and returns no row then;
    on a file that exists it changes nothing and returns one row for each
    line, in order, in which a field that is empty, or another of the
    reader's tokens for a missing value, is a missing value and a field
    of text is that text. *)
Theorem load_data_reads :
  (fst (load_data None) = empty_frame
   /\ option_map table_of_file (snd (load_data None)) = Some (Table CSV_FIELDS []))
  /\ (forall f, snd (load_data (Some f)) = Some f
                /\ extra_columns (fst (load_data (Some f))) = extra_columns f
                /\ Forall2 (fun line r =>
                              reads (Student_Name line) (Student_Name r)
                              /\ reads (Date line) (Date r)
                              /\ reads (Time line) (Time r)
                              /\ reads (Status line) (Status r))
                           (rows f) (rows (fst (load_data (Some f)))))
  /\ reads "" NaN
  /\ (forall s, Text.textual s = true -> reads s (Str s)).
Proof.
  assert (R : forall s, reads s (read_cell s)).
  { intros s. split; [|apply read_cell_textual].
    intros I. apply isna_In in I. unfold read_cell. now rewrite I. }
  split; [split; reflexivity|]. split; [|split].
  - intros f. split; [reflexivity|]. split; [reflexivity|]. simpl.
    induction (rows f) as [|line l IH]; simpl; constructor; [|exact IH].
    repeat split; apply R.
  - apply (R "").
  - intros s T. rewrite <- (read_cell_textual s T). apply R.
Qed.

Lemma load_data_reads_witness :
  reads "Alice" (Str "Alice") /\ reads "" NaN
  /\ snd (load_data Sample.registered) = Sample.registered.
Proof.
  destruct load_data_reads as (_ & F & E & T).
  split; [apply T; reflexivity|]. split; [exact E|].
  exact (proj1 (F (Sheet [] [ Row "Alice" "" "" "" [] ]))).
Defined.

(** ** C9: a blank name is refused *)

(** C9: registerStudent(name) answers InvalidName when the name is empty
    or made of white space only, and the store is then what it was: no
    row is appended, and a missing file is not even created. *)
Theorem registerStudent_invalid_name (name : string) (st : store) :
  name = "" \/ forallb Text.isspace (list_ascii_of_string name) = true ->
  registerStudent name st = (InvalidName, st).
Proof.
  intros H.
  assert (B : Text.blank name = true) by (destruct H as [->|H]; [reflexivity|exact H]).
  unfold registerStudent. now rewrite validate_student_name_blank, B.
Qed.

Lemma registerStudent_invalid_name_witness :
  registerStudent "" None = (InvalidName, None)
  /\ registerStudent "   " Sample.registered = (InvalidName, Sample.registered).
Proof.
  split.
  - apply registerStudent_invalid_name. left. reflexivity.
  - apply registerStudent_invalid_name. right. reflexivity.
Defined.

(** Only a blank name is refused. *)
Lemma registerStudent_invalid_iff (name : string) (st : store) :
  fst (registerStudent name st) = InvalidName <-> Text.blank name = true.
Proof.
  unfold registerStudent. rewrite validate_student_name_blank.
  destruct (Text.blank name); simpl.
  - tauto.
  - destruct (add_student (Text.strip name) st) as [[|] st']; simpl;
      split; discriminate.
Qed.

(** ** C10: marking attendance without registration *)

(** C10, as stated, fails on a blank name: marking [" "] in the empty
    store appends a row and returns Marked, and listStudents() stays
    empty, because it leaves out the names that are blank. *)
Lemma mark_attendance_blank_not_listed :
  let r := mark_attendance Sample.morning " " "Present" None in
  existsb (cell_is " ") (names (loaded None)) = false
  /\ fst r = true
  /\ List.length (loaded (snd r)) = 1
  /\ ~ In " " (fst (get_students (snd r))).
Proof. repeat split. simpl. tauto. Qed.

(** C10, amended: markAttendance asks for no registration.  For a name
    that no loaded row has, it returns Marked and appends one row, made
    of the name, the date and time of the clock and the status, the rows
    before it staying as they were; and when the name is not blank and is
    text that the reader returns unchanged, listStudents() holds it
    afterwards. *)
Theorem mark_attendance_unregistered (now : clock) (name status : string) (st : store) :
  existsb (cell_is name) (names (loaded st)) = false ->
  let r := mark_attendance now name status st in
  fst r = true
  /\ map four_fields (loaded (snd r))
     = map four_fields (loaded st)
       ++ [ (read_cell name, read_cell (date_str now), read_cell (time_str now),
             read_cell status) ]
  /\ (Text.blank name = false -> Text.textual name = true ->
      In name (fst (get_students (snd r)))).
Proof.
  intros N r. subst r. unfold mark_attendance.
  destruct (load_data st) as [df st'] eqn:L.
  assert (Hdf : rows df = loaded st) by (unfold loaded; now rewrite L).
  assert (E : existsb (fun r => cell_is name (Student_Name r)
                                && cell_is (date_str now) (Date r)
                                && isin_marks (Status r)) (rows df) = false).
  { rewrite Hdf. apply not_true_is_false. intros H.
    apply existsb_exists in H as [r [I H]].
    apply andb_prop in H as [H _]. apply andb_prop in H as [H _].
    assert (X : existsb (cell_is name) (names (loaded st)) = true).
    { apply existsb_exists. exists (Student_Name r). split; [now apply in_map|exact H]. }
    congruence. }
  rewrite E. cbn [fst snd].
  pose proof (loaded_append st st' df name (date_str now) (time_str now) status Hdf) as A.
  split; [reflexivity|split; [exact A|]].
  intros B T. apply get_students_In. split.
  - rewrite names_four, A, map_app. apply in_or_app. right. simpl. left.
    now apply read_cell_textual.
  - now rewrite TextFacts.nonblank_blank, B.
Qed.

Lemma mark_attendance_unregistered_witness :
  fst (mark_attendance Sample.morning "Carol" "Present" Sample.registered) = true
  /\ In "Carol" (fst (get_students
                        (snd (mark_attendance Sample.morning "Carol" "Present"
                                              Sample.registered)))).
Proof.
  destruct (mark_attendance_unregistered Sample.morning "Carol" "Present" Sample.registered)
    as (A & _ & C).
  - reflexivity.
  - split; [exact A|]. apply C; reflexivity.
Defined.

(* ================================================================== *)
(** * Further properties of the code                                    *)
(* ================================================================== *)

(** ** What is loaded *)

(** X1: no cell that [load_data] returns holds the empty text or another
    of the reader's missing-value tokens as text: such a field is loaded
    as a missing value.  So the test [df["Date"] != ""] of the statistics
    and of the history never removes a row: the rows with a date are the
    rows whose date is not missing. *)
Theorem loaded_has_no_empty_text (st : store) :
  (forall r s, In r (loaded st) ->
               Student_Name r = Str s \/ Date r = Str s \/ Time r = Str s
               \/ Status r = Str s \/ In (Str s) (others r) ->
               ~ In s Text.na_values /\ s <> "")
  /\ dated (loaded st) = filter (fun r => notna (Date r)) (loaded st).
Proof.
  split; [|apply dated_loaded].
  intros r s I H. pose proof (loaded_cells st r s I H) as N. split.
  - intros X. apply isna_In in X. congruence.
  - intros ->. discriminate N.
Qed.

Lemma loaded_has_no_empty_text_witness :
  ~ In "Alice" Text.na_values /\ "Alice" <> "".
Proof.
  destruct (loaded_has_no_empty_text Sample.registered) as [A _].
  apply (A (Row (Str "Alice") NaN NaN NaN []) "Alice").
  - simpl. auto.
  - left. reflexivity.
Defined.

(** X2: writing back what was loaded changes nothing that is seen:
    [save_data] of the frame that [load_data] returned, followed by
    [load_data], gives that frame again, and a further [load_data] leaves
    the file alone. *)
Theorem save_load_roundtrip (st st' : store) :
  let df := fst (load_data st) in
  load_data (save_data df st') = (df, save_data df st').
Proof.
  intros df.
  assert (E : fst (load_data (save_data df st')) = df).
  { apply load_save_canonical. intros r I. now apply loaded_canonical. }
  unfold save_data in *. rewrite load_data_Some in *. simpl in E. now rewrite E.
Qed.

(** ** The writers only append *)

Lemma existsb_four {P : cell * cell * cell * cell -> bool} (l : list (row cell)) :
  existsb (fun r => P (four_fields r)) l = existsb P (map four_fields l).
Proof. induction l as [|r t IH]; simpl; [reflexivity|now rewrite IH]. Qed.

Lemma filter_four (P : cell * cell * cell * cell -> bool) (l : list (row cell)) :
  map four_fields (filter (fun r => P (four_fields r)) l)
  = filter P (map four_fields l).
Proof.
  induction l as [|r t IH]; simpl; [reflexivity|].
  destruct (P (four_fields r)); simpl; now rewrite IH.
Qed.

Lemma mark_attendance_loaded (now : clock) (name status : string) (st : store) :
  map four_fields (loaded (snd (mark_attendance now name status st)))
  = map four_fields (loaded st)
    ++ (if fst (mark_attendance now name status st)
        then [ (read_cell name, read_cell (date_str now), read_cell (time_str now),
                read_cell status) ]
        else []).
Proof.
  unfold mark_attendance.
  destruct (load_data st) as [df st'] eqn:L.
  assert (Hdf : rows df = loaded st) by (unfold loaded; now rewrite L).
  assert (Hst : st' = snd (load_data st)) by now rewrite L.
  destruct (existsb _ (rows df)); cbn [fst snd].
  - subst st'. now rewrite loaded_again, app_nil_r.
  - now apply loaded_append.
Qed.

Lemma add_student_loaded (name : string) (st : store) :
  map four_fields (loaded (snd (add_student name st)))
  = map four_fields (loaded st)
    ++ (if fst (add_student name st) then [ (read_cell name, NaN, NaN, NaN) ] else []).
Proof.
  destruct (in_dec cell_eq_dec (Str name) (names (loaded st))) as [I|N].
  - rewrite (add_student_known name st I). cbn [fst snd].
    now rewrite loaded_again, app_nil_r.
  - destruct (add_student_new name st N) as [E A]. now rewrite E, A.
Qed.

Lemma mark_attendance_result (now : clock) (name status : string) (st : store) :
  fst (mark_attendance now name status st) = negb (marked name (date_str now) (loaded st)).
Proof.
  unfold mark_attendance, marked, loaded.
  destruct (load_data st) as [df st']. cbn [fst].
  now destruct (existsb _ (rows df)).
Qed.

Lemma marked_map (name day : string) (l : list (row cell)) :
  marked name day l
  = existsb (fun q : cell * cell * cell * cell =>
               cell_is name (fst (fst (fst q))) && cell_is day (snd (fst (fst q)))
               && isin_marks (snd q)) (map four_fields l).
Proof. unfold marked. induction l as [|r t IH]; simpl; [reflexivity|]. now rewrite IH. Qed.

Lemma marked_four (name day : string) (l l' : list (row cell)) :
  map four_fields l = map four_fields l' -> marked name day l = marked name day l'.
Proof. intros E. now rewrite !marked_map, E. Qed.

(** X3: [mark_attendance] and [add_student] only append.  On a store of
    text, with a name, a status, a date and a time that are text fields:
    after either call the rows that were loaded before are loaded again,
    in their order and with their four fields as they were; a call that
    returns True adds one row at the end, a call that returns False adds
    none.  [mark_attendance] returns False exactly when a loaded row has
    the name, the date of the clock and the status Present or Absent, and
    [add_student] exactly when a loaded row has the name. *)
Theorem writers_only_append (now : clock) (name status : string) (st : store) :
  text_store st = true ->
  text_field name = true ->
  text_field status = true ->
  text_clock now = true ->
  (let r := mark_attendance now name status st in
   map four_fields (loaded (snd r))
   = map four_fields (loaded st)
     ++ (if fst r
         then [ (read_cell name, read_cell (date_str now), read_cell (time_str now),
                 read_cell status) ]
         else [])
   /\ (fst r = false
       <-> exists q, In q (loaded st) /\ Student_Name q = Str name
                     /\ Date q = Str (date_str now)
                     /\ (Status q = Str "Present" \/ Status q = Str "Absent")))
  /\ (let r := add_student name st in
      map four_fields (loaded (snd r))
      = map four_fields (loaded st)
        ++ (if fst r then [ (read_cell name, NaN, NaN, NaN) ] else [])
      /\ (fst r = false <-> exists q, In q (loaded st) /\ Student_Name q = Str name)).
Proof.
  intros _ _ _ _. split; cbv zeta; split.
  - apply mark_attendance_loaded.
  - rewrite mark_attendance_result, negb_false_iff. unfold marked.
    rewrite existsb_exists. split.
    + intros [q [I H]]. exists q. split; [exact I|].
      apply andb_prop in H as [H H3]. apply andb_prop in H as [H1 H2].
      destruct (Student_Name q) as [|n]; [discriminate|].
      destruct (Date q) as [|d]; [discriminate|].
      destruct (Status q) as [|s]; [discriminate|].
      simpl in H1, H2. apply String.eqb_eq in H1, H2. subst.
      apply isin_marks_Str in H3. repeat split. destruct H3; [left|right]; congruence.
    + intros [q (I & H1 & H2 & H3)]. exists q. split; [exact I|].
      rewrite H1, H2. simpl. rewrite !String.eqb_refl. simpl.
      destruct H3 as [-> | ->]; reflexivity.
  - apply add_student_loaded.
  - split.
    + intros F. destruct (in_dec cell_eq_dec (Str name) (names (loaded st))) as [I|N].
      * apply in_map_iff in I as [q [E I]]. eauto.
      * rewrite (proj1 (add_student_new name st N)) in F. discriminate.
    + intros [q [I E]]. rewrite (add_student_known name st); [reflexivity|].
      apply in_map_iff. eauto.
Qed.

Lemma writers_only_append_witness :
  fst (mark_attendance Sample.morning "Carol" "Present" Sample.term) = true
  /\ map four_fields
         (loaded (snd (mark_attendance Sample.morning "Carol" "Present" Sample.term)))
     = map four_fields (loaded Sample.term)
       ++ [ (Str "Carol", Str "2024-01-05", Str "09:00:00", Str "Present") ]
  /\ fst (add_student "Alice" Sample.term) = false.
Proof.
  destruct (writers_only_append Sample.morning "Carol" "Present" Sample.term)
    as [[A _] _]; try reflexivity.
  destruct (writers_only_append Sample.morning "Alice" "Present" Sample.term)
    as [_ [_ B]]; try reflexivity.
  split; [reflexivity|]. split; [exact A|].
  apply B. exists (Row (Str "Alice") NaN NaN NaN []). split; [|reflexivity].
  simpl. auto.
Defined.

(** ** Names that are read back as missing *)

Lemma names_loaded_after_add (name : string) (st : store) :
  Text.isna name = true ->
  forall s, In (Str s) (names (loaded (snd (add_student name st))))
            <-> In (Str s) (names (loaded st)).
Proof.
  intros N s. rewrite !names_four, add_student_loaded, map_app, in_app_iff.
  split; [|auto]. intros [H|H]; [exact H|].
  destruct (fst (add_student name st)); simpl in H; [|contradiction].
  unfold read_cell in H. rewrite N in H. destruct H as [H|[]]. discriminate.
Qed.

Lemma not_loaded_na (name : string) (st : store) :
  Text.isna name = true -> ~ In (Str name) (names (loaded st)).
Proof.
  intros N I. apply in_map_iff in I as [r [E I]].
  assert (X : Text.isna name = false) by (apply (loaded_cells st r name I); auto).
  congruence.
Qed.

(** X4: a name that is one of the reader's missing-value tokens (NA,
    null, NaN, None and the like) is never recognised.  On every store
    [add_student] returns True for it and appends a row, the list of
    [get_students] is what it was and does not hold the name, and
    [mark_attendance] returns True for it however often it is called. *)
Theorem missing_value_name_never_known (now : clock) (name status : string) (st : store) :
  In name Text.na_values ->
  fst (add_student name st) = true
  /\ List.length (loaded (snd (add_student name st))) = S (List.length (loaded st))
  /\ fst (get_students (snd (add_student name st))) = fst (get_students st)
  /\ ~ In name (fst (get_students (snd (add_student name st))))
  /\ fst (mark_attendance now name status st) = true
  /\ fst (mark_attendance now name status (snd (mark_attendance now name status st)))
     = true.
Proof.
  intros I. apply isna_In in I.
  assert (M : forall st0, fst (mark_attendance now name status st0) = true).
  { intros st0. rewrite mark_attendance_result. apply negb_true_iff.
    apply not_true_is_false. intros H. unfold marked in H.
    apply existsb_exists in H as [r [Ir H]].
    apply andb_prop in H as [H _]. apply andb_prop in H as [H _].
    destruct (Student_Name r) as [|n] eqn:E; [discriminate|].
    simpl in H. apply String.eqb_eq in H. subst n.
    apply (not_loaded_na name st0 I). apply in_map_iff. eauto. }
  pose proof (add_student_new name st (not_loaded_na name st I)) as [A B].
  split; [exact A|]. split; [|split; [|split; [|split]]].
  - rewrite <- (length_map four_fields), B, length_app, length_map. simpl. lia.
  - unfold get_students.
    destruct (load_data (snd (add_student name st))) as [df1 s1] eqn:L1.
    destruct (load_data st) as [df0 s0] eqn:L0. cbn [fst].
    assert (H1 : rows df1 = loaded (snd (add_student name st)))
      by (unfold loaded; now rewrite L1).
    assert (H0 : rows df0 = loaded st) by (unfold loaded; now rewrite L0).
    rewrite H1, H0.
    change (map Student_Name (loaded (snd (add_student name st))))
      with (names (loaded (snd (add_student name st)))).
    change (map Student_Name (loaded st)) with (names (loaded st)).
    rewrite !names_four, B, map_app. simpl.
    unfold read_cell. rewrite I.
    assert (D : forall l, dropna (l ++ [NaN]) = dropna l).
    { induction l as [|[|x] l IH]; simpl; [reflexivity|exact IH|now rewrite IH]. }
    now rewrite D.
  - intros H. apply get_students_In in H as [H _].
    now apply (not_loaded_na name _ I) in H.
  - apply M.
  - apply M.
Qed.

Lemma missing_value_name_never_known_witness :
  fst (add_student "null" Sample.registered) = true
  /\ fst (mark_attendance Sample.morning "null" "Present"
            (snd (mark_attendance Sample.morning "null" "Present" None))) = true.
Proof.
  destruct (missing_value_name_never_known Sample.morning "null" "Present" Sample.registered)
    as (A & _).
  { simpl. tauto. }
  destruct (missing_value_name_never_known Sample.morning "null" "Present" None)
    as (_ & _ & _ & _ & _ & F).
  { simpl. tauto. }
  split; assumption.
Defined.

(** ** What blocks a mark, and what does not *)

Lemma cell_is_read (s t : string) : cell_is s (read_cell t) = true -> t = s.
Proof.
  unfold read_cell. destruct (Text.isna t); simpl; [discriminate|].
  apply String.eqb_eq.
Qed.

Lemma marked_app (name day : string) (l : list (row cell)) (q : cell * cell * cell * cell)
      (l' : list (row cell)) :
  map four_fields l' = map four_fields l ++ [q] ->
  marked name day l'
  = marked name day l
    || (cell_is name (fst (fst (fst q))) && cell_is day (snd (fst (fst q)))
        && isin_marks (snd q)).
Proof.
  intros E. rewrite !marked_map, E, existsb_app. simpl. now rewrite orb_false_r.
Qed.

Lemma marked_after_mark (now : clock) (name status name' day : string) (st : store) :
  marked name' day (loaded (snd (mark_attendance now name status st)))
  = marked name' day (loaded st)
    || (fst (mark_attendance now name status st)
        && cell_is name' (read_cell name) && cell_is day (read_cell (date_str now))
        && isin_marks (read_cell status)).
Proof.
  pose proof (mark_attendance_loaded now name status st) as E.
  destruct (fst (mark_attendance now name status st)).
  - rewrite (marked_app _ _ _ _ _ E). reflexivity.
  - rewrite app_nil_r in E. rewrite (marked_four _ _ _ _ E). simpl.
    now rewrite orb_false_r.
Qed.

(** X5: what does not block a mark.  On a store of text, for names,
    statuses, dates and times that are text fields: whether
    [mark_attendance] accepts a mark for a student on a day is not
    changed by an earlier mark for another student or on another day, by
    an earlier mark whose status is neither Present nor Absent, or by the
    registration of any name. *)
Theorem mark_not_blocked (now now' : clock) (name name' status status' : string)
        (st : store) :
  text_store st = true ->
  text_field name = true -> text_field name' = true ->
  text_field status = true -> text_field status' = true ->
  text_clock now = true -> text_clock now' = true ->
  (name' <> name \/ date_str now' <> date_str now
   \/ (status <> "Present" /\ status <> "Absent") ->
   fst (mark_attendance now' name' status' (snd (mark_attendance now name status st)))
   = fst (mark_attendance now' name' status' st))
  /\ fst (mark_attendance now' name' status' (snd (add_student name st)))
     = fst (mark_attendance now' name' status' st).
Proof.
  intros _ _ _ _ _ _ _. split.
  - intros H. rewrite !mark_attendance_result, marked_after_mark. f_equal.
    match goal with |- _ || ?b = _ => assert (B : b = false) end.
    { apply not_true_is_false. intros X.
      apply andb_prop in X as [X X3]. apply andb_prop in X as [X X2].
      apply andb_prop in X as [_ X1].
      apply cell_is_read in X1, X2.
      destruct H as [H|[H|[H1 H2]]]; try congruence.
      unfold isin_marks in X3. apply orb_prop in X3.
      destruct X3 as [X3|X3]; apply cell_is_read in X3; congruence. }
    rewrite B. apply orb_false_r.
  - rewrite !mark_attendance_result. f_equal.
    pose proof (add_student_loaded name st) as E.
    destruct (fst (add_student name st)).
    + rewrite (marked_app _ _ _ _ _ E). simpl. now rewrite andb_false_r, orb_false_r.
    + rewrite app_nil_r in E. now apply marked_four.
Qed.

Lemma mark_not_blocked_witness :
  fst (mark_attendance Sample.evening "Bob" "Present"
         (snd (mark_attendance Sample.morning "Alice" "Present" Sample.registered)))
  = fst (mark_attendance Sample.evening "Bob" "Present" Sample.registered).
Proof.
  apply (proj1 (mark_not_blocked Sample.morning Sample.evening "Alice" "Bob"
                                 "Present" "Present" Sample.registered
                                 eq_refl eq_refl eq_refl eq_refl eq_refl eq_refl eq_refl)).
  left. discriminate.
Defined.

(** ** Deletion *)

Lemma matches_fields (n d t s : string) (r : row cell) :
  matches (Str n) (Str d) (Str t) (Str s) r = true
  <-> four_fields r = (Str n, Str d, Str t, Str s).
Proof.
  unfold matches, four_fields. rewrite !andb_true_iff, !eq_value_Str.
  split.
  - intros [[[-> ->] ->] ->]. reflexivity.
  - intros H. inversion H. auto.
Qed.

Lemma delete_fields (n d t s : string) (st : store) :
  map four_fields (loaded (delete_attendance_record (Str n) (Str d) (Str t) (Str s) st))
  = filter (fun q => if fields_eq_dec q (Str n, Str d, Str t, Str s) then false else true)
           (map four_fields (loaded st)).
Proof.
  rewrite delete_loaded, <- filter_four. f_equal. apply filter_ext. intros r.
  destruct (fields_eq_dec (four_fields r) (Str n, Str d, Str t, Str s)) as [E|E].
  - apply matches_fields in E. now rewrite E.
  - apply negb_true_iff, not_true_is_false. intros M. now apply matches_fields in M.
Qed.

Lemma filter_idem {A : Type} (p : A -> bool) (l : list A) :
  filter p (filter p l) = filter p l.
Proof.
  induction l as [|a t IH]; simpl; [reflexivity|].
  destruct (p a) eqn:E; simpl; [now rewrite E, IH|exact IH].
Qed.

Lemma delete_unfold (n d t s : cell) (st : store) :
  delete_attendance_record n d t s st
  = Some (to_csv (Sheet (extra_columns (fst (load_data st)))
                        (filter (fun r => negb (matches n d t s r)) (loaded st)))).
Proof.
  unfold delete_attendance_record, loaded. now destruct (load_data st).
Qed.

Lemma delete_again (n d t s : cell) (st : store) :
  delete_attendance_record n d t s (delete_attendance_record n d t s st)
  = delete_attendance_record n d t s st.
Proof.
  rewrite (delete_unfold n d t s (delete_attendance_record n d t s st)).
  rewrite (delete_unfold n d t s st).
  set (kept := Sheet (extra_columns (fst (load_data st)))
                     (filter (fun r => negb (matches n d t s r)) (loaded st))).
  assert (E : fst (load_data (Some (to_csv kept))) = kept).
  { apply (load_save_canonical kept None). intros r I. apply filter_In in I as [I _].
    now apply loaded_canonical. }
  unfold loaded. rewrite E. unfold kept. cbn [rows extra_columns].
  now rewrite filter_idem.
Qed.

Lemma no_match_missing (n d t s : cell) (st : store) (r : row cell) :
  (exists v, In v [n; d; t; s] /\ (v = NaN \/ exists x, v = Str x /\ Text.isna x = true)) ->
  In r (loaded st) -> matches n d t s r = false.
Proof.
  intros [v [Iv Hv]] I.
  assert (X : forall c, c = Student_Name r \/ c = Date r \/ c = Time r \/ c = Status r ->
                        eq_value v c = false).
  { intros c Hc. destruct Hv as [->|[x [-> N]]]; [reflexivity|].
    simpl. destruct c as [|y] eqn:Ec; [reflexivity|]. simpl.
    destruct (String.eqb_spec y x) as [->|]; [|reflexivity].
    assert (Y : Text.isna x = false).
    { apply (loaded_cells st r x I). intuition congruence. }
    congruence. }
  unfold matches. simpl in Iv.
  destruct Iv as [<-|[<-|[<-|[<-|[]]]]].
  - rewrite X by auto. reflexivity.
  - rewrite (X (Date r)) by auto. now rewrite andb_false_r.
  - rewrite (X (Time r)) by auto. now rewrite andb_false_r.
  - rewrite (X (Status r)) by auto. now rewrite andb_false_r.
Qed.

(** X6: what [delete_attendance_record] does, on a store of text.
    Called with four texts, it removes the loaded rows whose four fields
    are these four texts and keeps every other row, in order and with its
    four fields as they were; a second call with the same values changes
    nothing.  Called with a value that is missing, empty or another
    missing-value token in any of the four places, it removes no row at
    all. *)
Theorem delete_attendance_record_effect (st : store) :
  text_store st = true ->
  (forall n d t s,
      map four_fields (loaded (delete_attendance_record (Str n) (Str d) (Str t) (Str s) st))
      = filter (fun q => if fields_eq_dec q (Str n, Str d, Str t, Str s)
                         then false else true)
               (map four_fields (loaded st)))
  /\ (forall n d t s,
         delete_attendance_record n d t s (delete_attendance_record n d t s st)
         = delete_attendance_record n d t s st)
  /\ (forall n d t s,
         (exists v, In v [n; d; t; s]
                    /\ (v = NaN \/ exists x, v = Str x /\ In x Text.na_values)) ->
         map four_fields (loaded (delete_attendance_record n d t s st))
         = map four_fields (loaded st)).
Proof.
  intros _. split; [|split].
  - intros. apply delete_fields.
  - intros. apply delete_again.
  - intros n d t s H. rewrite delete_loaded. f_equal.
    apply filter_all. intros r I. apply negb_true_iff.
    apply (no_match_missing n d t s st r); [|exact I].
    destruct H as [v [Iv [Hv|[x [Hv X]]]]]; exists v; split; auto.
    right. exists x. split; [exact Hv|]. now apply isna_In.
Qed.

Lemma delete_attendance_record_effect_witness :
  map four_fields
      (loaded (delete_attendance_record (Str "Bob") NaN (Str "09:02:00") (Str "Absent")
                                        Sample.term))
  = map four_fields (loaded Sample.term).
Proof.
  apply (proj2 (proj2 (delete_attendance_record_effect Sample.term eq_refl))).
  exists NaN. split; [simpl; auto|]. left. reflexivity.
Defined.

(** X7: a mark that was made can be taken back.  When a mark for a
    student was accepted and the record is then deleted with the name,
    date, time and status it was made with (all text that the reader
    returns unchanged), the rows are those from before the mark, and the
    student can be marked again on that day. *)
Theorem mark_delete_mark (now now' : clock) (name status status' : string) (st : store) :
  Text.textual name = true ->
  Text.textual (date_str now) = true ->
  Text.textual (time_str now) = true ->
  status = "Present" \/ status = "Absent" ->
  date_str now' = date_str now ->
  fst (mark_attendance now name status st) = true ->
  let st1 := snd (mark_attendance now name status st) in
  let st2 := delete_attendance_record (Str name) (Str (date_str now))
                                      (Str (time_str now)) (Str status) st1 in
  map four_fields (loaded st2) = map four_fields (loaded st)
  /\ fst (mark_attendance now' name status' st2) = true.
Proof.
  intros Tn Td Tt S D M st1 st2.
  assert (A : map four_fields (loaded st2) = map four_fields (loaded st)).
  { subst st2 st1. rewrite delete_fields, mark_attendance_loaded, M.
    rewrite (read_cell_textual _ Tn), (read_cell_textual _ Td), (read_cell_textual _ Tt).
    change (read_cell status) with (reread (Str status)). rewrite (reread_mark _ S).
    rewrite filter_app. cbn [filter].
    destruct (fields_eq_dec (Str name, Str (date_str now), Str (time_str now), Str status)
                            (Str name, Str (date_str now), Str (time_str now), Str status))
      as [_|N]; [|contradiction].
    rewrite app_nil_r. apply filter_all. intros q I.
    destruct (fields_eq_dec q (Str name, Str (date_str now), Str (time_str now), Str status))
      as [E|_]; [|reflexivity]. exfalso.
    rewrite mark_attendance_result in M. apply negb_true_iff in M.
    rewrite marked_map in M.
    assert (X : existsb (fun q : cell * cell * cell * cell =>
                           cell_is name (fst (fst (fst q)))
                           && cell_is (date_str now) (snd (fst (fst q)))
                           && isin_marks (snd q)) (map four_fields (loaded st)) = true).
    { apply existsb_exists. exists q. split; [exact I|]. subst q. simpl.
      rewrite !String.eqb_refl. simpl. now apply isin_marks_Str. }
    congruence. }
  split; [exact A|].
  rewrite mark_attendance_result, (marked_four _ _ _ _ A), D.
  now rewrite mark_attendance_result in M.
Qed.

Lemma mark_delete_mark_witness :
  fst (mark_attendance Sample.evening "Alice" "Absent"
         (delete_attendance_record (Str "Alice") (Str "2024-01-05") (Str "09:00:00")
            (Str "Present")
            (snd (mark_attendance Sample.morning "Alice" "Present" Sample.registered))))
  = true.
Proof.
  apply (mark_delete_mark Sample.morning Sample.evening "Alice" "Present" "Absent"
                          Sample.registered); try reflexivity.
  left. reflexivity.
Defined.

(** ** The statistics table *)

Lemma stats_table_students_list (l : list (row cell)) :
  map student (stats_table l)
  = sorted (unique string_dec
              (dropna (map Student_Name
                           (filter (fun r => notna (Student_Name r) && notna (Status r)) l)))).
Proof.
  unfold stats_table. destruct l as [|r0 t]; [reflexivity|].
  unfold groupby_size_unstack. rewrite !map_map. cbn [student]. apply map_id.
Qed.

Lemma stats_table_listed (l : list (row cell)) (name : string) :
  In name (map student (stats_table l))
  <-> exists r, In r l /\ Student_Name r = Str name /\ notna (Status r) = true.
Proof.
  rewrite stats_table_students_list, sorted_In, unique_In, dropna_In, in_map_iff.
  split.
  - intros [r [E I]]. apply filter_In in I as [I K].
    apply andb_prop in K as [_ K]. eauto.
  - intros [r (I & E & K)]. exists r. split; [exact E|].
    apply filter_In. split; [exact I|]. now rewrite E, K.
Qed.



(** ** Statistics and the other operations *)

Lemma map_four_nil (l l' : list (row cell)) :
  map four_fields l = map four_fields l' -> l = [] -> l' = [].
Proof. intros E ->. destruct l'; [reflexivity|discriminate]. Qed.

Lemma keyed_names_four (l l' : list (row cell)) :
  map four_fields l = map four_fields l' ->
  map Student_Name (filter (fun r => notna (Student_Name r) && notna (Status r)) l)
  = map Student_Name (filter (fun r => notna (Student_Name r) && notna (Status r)) l').
Proof.
  revert l'. induction l as [|r t IH]; intros [|r' t'] E; try discriminate; [reflexivity|].
  simpl in E. inversion E as [[E1 E2 E3 E4 E5]]. simpl. rewrite E1, E4.
  destruct (notna (Student_Name r') && notna (Status r')); simpl;
    now rewrite (IH t' E5), ?E1.
Qed.

Lemma group_size_four (name status : string) (l l' : list (row cell)) :
  map four_fields l = map four_fields l' ->
  group_size name status l = group_size name status l'.
Proof.
  unfold group_size.
  revert l'. induction l as [|r t IH]; intros [|r' t'] E; try discriminate; [reflexivity|].
  simpl in E. inversion E as [[E1 E2 E3 E4 E5]]. simpl. rewrite E1, E4.
  destruct (cell_is name (Student_Name r') && cell_is status (Status r')); simpl;
    now rewrite (IH t' E5).
Qed.

Lemma stats_table_count (l : list (row cell)) :
  stats_table l
  = map (fun name => Stat name (group_size name "Present" l) (group_size name "Absent" l)
                          (percentage (group_size name "Present" l)
                                      (group_size name "Absent" l)))
        (map student (stats_table l)).
Proof.
  rewrite stats_table_students_list.
  unfold stats_table. destruct l as [|r0 t]; [reflexivity|].
  unfold groupby_size_unstack. rewrite map_map. apply map_ext. intros name.
  now rewrite !group_size_keyed.
Qed.

Lemma stats_table_four (l l' : list (row cell)) :
  map four_fields l = map four_fields l' -> stats_table l = stats_table l'.
Proof.
  intros E. rewrite (stats_table_count l), (stats_table_count l').
  rewrite !stats_table_students_list, (keyed_names_four l l' E).
  apply map_ext. intros name.
  now rewrite (group_size_four name "Present" l l' E), (group_size_four name "Absent" l l' E).
Qed.

Lemma dated_four (l l' : list (row cell)) :
  map four_fields l = map four_fields l' ->
  map four_fields (dated l) = map four_fields (dated l').
Proof.
  unfold dated.
  revert l'. induction l as [|r t IH]; intros [|r' t'] E; try discriminate; [reflexivity|].
  simpl in E. inversion E as [[E1 E2 E3 E4 E5]]. simpl. rewrite E2.
  destruct (notna (Date r') && negb (cell_is "" (Date r'))); simpl;
    rewrite ?(IH t' E5); [|reflexivity].
  unfold four_fields. now rewrite E1, E2, E3, E4.
Qed.

Lemma dated_app (l l' : list (row cell)) : dated (l ++ l') = dated l ++ dated l'.
Proof. apply filter_app. Qed.

Lemma map_Date_four (l l' : list (row cell)) :
  map four_fields l = map four_fields l' -> map Date l = map Date l'.
Proof.
  intros E. apply (f_equal (map (fun q : cell * cell * cell * cell => snd (fst (fst q))))) in E.
  now rewrite !map_map in E.
Qed.

Lemma combine_four {B : Type} (Q : B -> bool) (l l' : list (row cell)) (ts : list B) :
  map four_fields l = map four_fields l' ->
  map four_fields (map fst (filter (fun rt => Q (snd rt)) (combine l ts)))
  = map four_fields (map fst (filter (fun rt => Q (snd rt)) (combine l' ts))).
Proof.
  revert l' ts. induction l as [|r t IH]; intros [|r' t'] ts E; try discriminate;
    [reflexivity|].
  simpl in E. inversion E as [[E1 E2 E3 E4 E5]].
  destruct ts as [|x ts]; [reflexivity|]. simpl.
  destruct (Q x); simpl; rewrite (IH t' ts E5); [|reflexivity].
  unfold four_fields. now rewrite E1, E2, E3, E4.
Qed.

Section StatsFacts.

Variable to_datetime : list cell -> list (option timestamp).

Lemma in_month_four (month year : Z) (l l' : list (row cell)) :
  map four_fields l = map four_fields l' ->
  map four_fields (in_month to_datetime month year l)
  = map four_fields (in_month to_datetime month year l').
Proof.
  intros E. unfold in_month, stamped.
  rewrite (map_Date_four _ _ (dated_four l l' E)).
  set (ts := to_datetime (map Date (dated l'))).
  assert (F : forall a : list (row cell),
             filter (fun rt : row cell * option timestamp => year_is year (snd rt))
                    (filter (fun rt => month_is month (snd rt)) (combine a ts))
             = filter (fun rt => month_is month (snd rt) && year_is year (snd rt))
                      (combine a ts)).
  { intros a. induction (combine a ts) as [|x c IH]; simpl; [reflexivity|].
    destruct (month_is month (snd x)); simpl; [|exact IH].
    destruct (year_is year (snd x)); simpl; now rewrite IH. }
  rewrite !F.
  apply (combine_four (fun t => month_is month t && year_is year t)).
  now apply dated_four.
Qed.

Lemma in_year_four (year : Z) (l l' : list (row cell)) :
  map four_fields l = map four_fields l' ->
  map four_fields (in_year to_datetime year l)
  = map four_fields (in_year to_datetime year l').
Proof.
  intros E. unfold in_year, stamped.
  rewrite (map_Date_four _ _ (dated_four l l' E)).
  apply (combine_four (fun t => year_is year t)). now apply dated_four.
Qed.

(** The rows of a store with a placeholder row at the end have the dated
    rows of the store. *)
Lemma dated_placeholder (l l' : list (row cell)) (c : cell) :
  map four_fields l' = map four_fields l ++ [ (c, NaN, NaN, NaN) ] ->
  map four_fields (dated l') = map four_fields (dated l).
Proof.
  intros E.
  set (p := Row c NaN NaN NaN ([] : list cell)).
  assert (E' : map four_fields l' = map four_fields (l ++ [p])) by now rewrite map_app.
  rewrite (dated_four _ _ E'), dated_app. simpl. now rewrite app_nil_r.
Qed.

End StatsFacts.

Section StatsTheorems.

Variable to_datetime : list cell -> list (option timestamp).

Lemma attendance_stats_fst (st : store) :
  fst (attendance_stats st) = stats_table (dated (loaded st)).
Proof. unfold attendance_stats, loaded. now destruct (load_data st). Qed.

Lemma attendance_stats_by_month_fst (month year : Z) (st : store) :
  fst (attendance_stats_by_month to_datetime month year st)
  = stats_table (in_month to_datetime month year (loaded st)).
Proof. unfold attendance_stats_by_month, loaded. now destruct (load_data st). Qed.

Lemma attendance_stats_by_year_fst (year : Z) (st : store) :
  fst (attendance_stats_by_year to_datetime year st)
  = stats_table (in_year to_datetime year (loaded st)).
Proof. unfold attendance_stats_by_year, loaded. now destruct (load_data st). Qed.

Lemma in_month_dated (month year : Z) (l l' : list (row cell)) :
  dated l = dated l' ->
  in_month to_datetime month year l = in_month to_datetime month year l'.
Proof. intros E. unfold in_month, stamped. now rewrite E. Qed.

Lemma in_year_dated (year : Z) (l l' : list (row cell)) :
  dated l = dated l' -> in_year to_datetime year l = in_year to_datetime year l'.
Proof. intros E. unfold in_year, stamped. now rewrite E. Qed.

(** X9: registering a student changes no statistics.  On a store of
    text, after [add_student] of a name that is a text field, whatever it
    returns, the overall table, the table of every month and the table of
    every year are what they were. *)
Theorem registration_keeps_statistics (name : string) (st : store) :
  text_store st = true ->
  text_field name = true ->
  let st1 := snd (add_student name st) in
  fst (attendance_stats st1) = fst (attendance_stats st)
  /\ (forall month year,
         fst (attendance_stats_by_month to_datetime month year st1)
         = fst (attendance_stats_by_month to_datetime month year st))
  /\ (forall year,
         fst (attendance_stats_by_year to_datetime year st1)
         = fst (attendance_stats_by_year to_datetime year st)).
Proof.
  intros _ _ st1.
  set (p := Row (read_cell name) NaN NaN NaN ([] : list cell)).
  assert (E : map four_fields (loaded st1)
              = map four_fields (loaded st ++ if fst (add_student name st) then [p] else [])).
  { subst st1. rewrite add_student_loaded, map_app.
    now destruct (fst (add_student name st)). }
  assert (D : dated (loaded st ++ if fst (add_student name st) then [p] else [])
              = dated (loaded st)).
  { rewrite dated_app. destruct (fst (add_student name st)); simpl; apply app_nil_r. }
  split; [|split].
  - rewrite !attendance_stats_fst. apply stats_table_four.
    rewrite (dated_four _ _ E). now rewrite D.
  - intros month year. rewrite !attendance_stats_by_month_fst. apply stats_table_four.
    rewrite (in_month_four to_datetime month year _ _ E).
    now rewrite (in_month_dated month year _ _ D).
  - intros year. rewrite !attendance_stats_by_year_fst. apply stats_table_four.
    rewrite (in_year_four to_datetime year _ _ E).
    now rewrite (in_year_dated year _ _ D).
Qed.

Lemma narrowed_month_year (month year : Z) (p : row cell -> bool)
      (S : list (row cell * option timestamp)) :
  List.length (filter p (map fst (filter (fun rt => year_is year (snd rt))
                                         (filter (fun rt => month_is month (snd rt)) S))))
  <= List.length (filter p (map fst (filter (fun rt => year_is year (snd rt)) S))).
Proof.
  induction S as [|x S IH]; simpl; [lia|].
  destruct (month_is month (snd x)); simpl.
  - destruct (year_is year (snd x)); simpl; [|exact IH].
    destruct (p (fst x)); simpl; lia.
  - destruct (year_is year (snd x)); simpl; [|exact IH].
    destruct (p (fst x)); simpl; lia.
Qed.

Lemma narrowed_combine {B : Type} (Q : B -> bool) (p : row cell -> bool)
      (l : list (row cell)) (ts : list B) :
  List.length (filter p (map fst (filter (fun rt => Q (snd rt)) (combine l ts))))
  <= List.length (filter p l).
Proof.
  revert ts. induction l as [|r l IH]; intros [|t ts]; simpl; try lia.
  specialize (IH ts). destruct (Q t); simpl; destruct (p r); simpl; lia.
Qed.

Lemma in_month_in_year (month year : Z) (l : list (row cell)) (r : row cell) :
  In r (in_month to_datetime month year l) -> In r (in_year to_datetime year l).
Proof.
  unfold in_month, in_year. rewrite !in_map_iff.
  intros [x [E I]]. exists x. split; [exact E|].
  apply filter_In in I as [I Y]. apply filter_In in I as [I _].
  apply filter_In. auto.
Qed.

Lemma in_year_dated_row (year : Z) (l : list (row cell)) (r : row cell) :
  In r (in_year to_datetime year l) -> In r (dated l).
Proof.
  unfold in_year, stamped. rewrite in_map_iff.
  intros [[r' t] [E I]]. simpl in E. subst r'.
  apply filter_In in I as [I _]. now apply in_combine_l in I.
Qed.

Lemma stats_table_wider (l l' : list (row cell)) (s : stat) :
  (forall r, In r l -> In r l') ->
  (forall name status, group_size name status l <= group_size name status l') ->
  In s (stats_table l) ->
  exists s', In s' (stats_table l') /\ student s' = student s
             /\ Present s <= Present s' /\ Absent s <= Absent s'.
Proof.
  intros I G H.
  assert (N : In (student s) (map student (stats_table l'))).
  { apply stats_table_listed.
    assert (M : In (student s) (map student (stats_table l))) by now apply in_map.
    apply stats_table_listed in M as [r (Ir & E & K)]. exists r. auto. }
  apply in_map_iff in N as [s' [E I']]. exists s'. split; [exact I'|]. split; [exact E|].
  apply stats_table_In in H as (P & A & _). apply stats_table_In in I' as (P' & A' & _).
  rewrite P, A, P', A', E. split; apply G.
Qed.

(** X10: the table of a month is within the table of its year, and the
    table of a year within the overall table: a student with a line in
    the narrower table has a line in the wider one, and the wider line
    counts at least as many Present and at least as many Absent. *)
Theorem statistics_narrow (month year : Z) (st : store) (s : stat) :
  (In s (fst (attendance_stats_by_month to_datetime month year st)) ->
   exists s', In s' (fst (attendance_stats_by_year to_datetime year st))
              /\ student s' = student s
              /\ Present s <= Present s' /\ Absent s <= Absent s')
  /\ (In s (fst (attendance_stats_by_year to_datetime year st)) ->
      exists s', In s' (fst (attendance_stats st))
                 /\ student s' = student s
                 /\ Present s <= Present s' /\ Absent s <= Absent s').
Proof.
  rewrite attendance_stats_by_month_fst, attendance_stats_by_year_fst, attendance_stats_fst.
  split; apply stats_table_wider.
  - apply in_month_in_year.
  - intros name status. unfold group_size, in_month, in_year. apply narrowed_month_year.
  - apply in_year_dated_row.
  - intros name status. unfold group_size, in_year, stamped. apply narrowed_combine.
Qed.

End StatsTheorems.

Lemma registration_keeps_statistics_witness :
  fst (attendance_stats (snd (add_student "Carol" Sample.term)))
  = fst (attendance_stats Sample.term).
Proof.
  apply (registration_keeps_statistics Iso.to_datetime "Carol" Sample.term eq_refl eq_refl).
Defined.

Lemma statistics_narrow_witness :
  exists s', In s' (fst (attendance_stats_by_year Iso.to_datetime 2024 Sample.term))
             /\ student s' = "Alice" /\ 2 <= Present s' /\ 0 <= Absent s'.
Proof.
  apply (proj1 (statistics_narrow Iso.to_datetime 1 2024 Sample.term
                  (Stat "Alice" 2 0 (Some (Binary64.Float 7036874417766400 (-46)))))).
  vm_compute. auto.
Defined.

(** ** A mark in the statistics, the history and the table of today *)



Lemma textual_nonempty (s : string) : Text.textual s = true -> s <> "".
Proof. intros T ->. discriminate T. Qed.




Lemma get_attendance_history_rows (name : string) (st : store) :
  rows (fst (get_attendance_history name st))
  = filter (fun r => cell_is name (Student_Name r)) (dated (loaded st)).
Proof.
  unfold get_attendance_history, loaded, dated.
  destruct (load_data st) as [df st']. cbn [fst rows].
  induction (rows df) as [|r l IH]; simpl; [reflexivity|].
  destruct (cell_is name (Student_Name r)) eqn:X, (notna (Date r)),
    (negb (cell_is "" (Date r))); simpl; rewrite ?X, IH; reflexivity.
Qed.

Lemma cell_is_Str (s : string) (c : cell) : cell_is s c = true <-> c = Str s.
Proof.
  destruct c as [|t]; simpl; [split; discriminate|].
  rewrite String.eqb_eq. split; congruence.
Qed.

(** X12: the history of a student and the statistics agree, on a store
    of text.  The rows of [get_attendance_history] are the loaded rows of
    the student that have a date; the line of the student in the overall
    table counts the rows of the history with status Present and those
    with status Absent; and a student with a line in the table has a
    history that is not empty. *)
Theorem history_and_statistics (name : string) (st : store) :
  text_store st = true ->
  let history := rows (fst (get_attendance_history name st)) in
  (forall r, In r history
             <-> In r (loaded st) /\ Student_Name r = Str name /\ notna (Date r) = true)
  /\ (forall s, In s (fst (attendance_stats st)) -> student s = name ->
                Present s
                = List.length (filter (fun r => cell_is "Present" (Status r)) history)
                /\ Absent s
                   = List.length (filter (fun r => cell_is "Absent" (Status r)) history))
  /\ (In name (map student (fst (attendance_stats st))) -> history <> []).
Proof.
  intros _ history. subst history. rewrite get_attendance_history_rows.
  split; [|split].
  - intros r. rewrite filter_In, dated_loaded, filter_In, cell_is_Str. tauto.
  - intros s I E. rewrite attendance_stats_fst in I.
    apply stats_table_In in I as (P & A & _). rewrite P, A, E.
    unfold group_size. now rewrite !filter_filter_length.
  - rewrite attendance_stats_fst, stats_table_listed.
    intros [r (I & E & _)] H.
    assert (X : In r (filter (fun r => cell_is name (Student_Name r)) (dated (loaded st)))).
    { apply filter_In. split; [exact I|]. now apply cell_is_Str. }
    rewrite H in X. exact X.
Qed.

Lemma history_and_statistics_witness :
  List.length (rows (fst (get_attendance_history "Alice" Sample.term))) = 4
  /\ 3 = List.length (filter (fun r => cell_is "Present" (Status r))
                             (rows (fst (get_attendance_history "Alice" Sample.term)))).
Proof.
  split; [reflexivity|].
  apply (proj1 (proj2 (history_and_statistics "Alice" Sample.term eq_refl))
               (Stat "Alice" 3 1 (Some (Binary64.Float 5277655813324800 (-46))))).
  - vm_compute. auto.
  - reflexivity.
Defined.

(** ** The dashboard *)

Lemma combine_nil_r {A B : Type} (l : list A) : combine l ([] : list B) = [].
Proof. now destruct l. Qed.

(** The rows that a test keeps, next to their dates. *)
Lemma combine_filter_fst {A B : Type} (p : A -> bool) (l : list A) (m : list B) :
  combine (filter p l) (map snd (filter (fun ab => p (fst ab)) (combine l m)))
  = filter (fun ab => p (fst ab)) (combine l m).
Proof.
  revert m. induction l as [|a l IH]; intros [|b m]; simpl;
    try reflexivity; try apply combine_nil_r.
  destruct (p a); simpl; now rewrite IH.
Qed.

Section DashboardFacts.

Variable to_datetime : list cell -> list (option timestamp).

Lemma student_dashboard_counts (name : string) (month year : Z) (st : store) :
  name <> "" ->
  parsed_alike to_datetime name st ->
  exists d,
    student_dashboard to_datetime name month year st = (Some d, snd (load_data st))
    /\ present_count d
       = group_size name "Present" (in_month to_datetime month year (loaded st))
    /\ absent_count d
       = group_size name "Absent" (in_month to_datetime month year (loaded st))
    /\ percent d
       = (if 0 <? present_count d + absent_count d
          then Binary64.mul (Binary64.div (Binary64.of_nat (present_count d))
                                          (Binary64.of_nat
                                             (present_count d + absent_count d)))
                            (Binary64.of_nat 100)
          else Binary64.Float 0 0).
Proof.
  intros N P. unfold parsed_alike in P.
  pose proof (get_attendance_history_rows name st) as H.
  assert (S : snd (get_attendance_history name st) = snd (load_data st))
    by (unfold get_attendance_history; now destruct (load_data st)).
  unfold student_dashboard.
  destruct (String.eqb_spec name "") as [E|_]; [contradiction|].
  destruct (get_attendance_history name st) as [history st'].
  cbn [fst snd] in *. subst st'. eexists. split; [reflexivity|].
  cbn [present_count absent_count percent].
  rewrite P, H, <- stamped_loaded. unfold stamped at 1 2.
  rewrite (combine_filter_fst (fun r => cell_is name (Student_Name r))).
  fold (stamped to_datetime (loaded st)).
  unfold in_month, group_size.
  rewrite <- !(length_filter_fst
                 (fun r => cell_is name (Student_Name r) && cell_is _ (Status r))).
  rewrite !filter_filter_length.
  split; [|split; [|reflexivity]]; apply filter_length_ext; intros [r t];
    cbn [fst snd];
    destruct (cell_is name (Student_Name r)), (month_is month t), (year_is year t);
    reflexivity.
Qed.

(** X13: the numbers of the dashboard are those of the monthly table.
    On a store of text, for a student that is selected (a name that is
    not empty) and whose dates the parser reads, in the history, as it
    reads them within the column of all dates: the counts that the
    dashboard shows for the student, a month and a year are the counts of
    the student's line in [attendance_stats_by_month], and the percentage
    is the same when one of the counts is not 0; for a student without a
    line in that table the dashboard shows 0, 0 and 0.  With no student
    selected the dashboard computes nothing and loads nothing. *)
Theorem dashboard_agrees (name : string) (month year : Z) (st : store) :
  text_store st = true ->
  student_dashboard to_datetime "" month year st = (None, st)
  /\ (name <> "" ->
      parsed_alike to_datetime name st ->
      exists d,
        let table := fst (attendance_stats_by_month to_datetime month year st) in
        fst (student_dashboard to_datetime name month year st) = Some d
        /\ (forall s, In s table -> student s = name ->
                      present_count d = Present s /\ absent_count d = Absent s
                      /\ (0 < Present s + Absent s -> Attendance s = Some (percent d)))
        /\ (~ In name (map student table) ->
            present_count d = 0 /\ absent_count d = 0
            /\ percent d = Binary64.Float 0 0)).
Proof.
  intros _. split; [reflexivity|]. intros N L.
  destruct (student_dashboard_counts name month year st N L) as (d & D & P & A & Q).
  exists d. cbv zeta. rewrite D. split; [reflexivity|].
  rewrite attendance_stats_by_month_fst.
  split.
  - intros s I E. apply stats_table_In in I as (Ps & As & Qs).
    rewrite E in Ps, As. rewrite <- Ps in P. rewrite <- As in A.
    split; [exact P|]. split; [exact A|].
    intros Z. rewrite Qs, (percentage_Some _ _ Z), Q, P, A.
    destruct (0 <? Present s + Absent s) eqn:X; [reflexivity|].
    apply Nat.ltb_ge in X. lia.
  - intros K.
    assert (G : forall status,
               group_size name status (in_month to_datetime month year (loaded st)) = 0).
    { intros status. unfold group_size.
      destruct (filter _ _) as [|r l] eqn:F; [reflexivity|]. exfalso. apply K.
      assert (I : In r (filter (fun r => cell_is name (Student_Name r)
                                         && cell_is status (Status r))
                               (in_month to_datetime month year (loaded st))))
        by (rewrite F; now left).
      apply filter_In in I as [I X]. apply andb_prop in X as [K1 K2].
      apply stats_table_listed. exists r. split; [exact I|].
      split; [now apply cell_is_Str|now apply (cell_is_notna status)]. }
    rewrite Q, P, A, !G. auto.
Qed.

End DashboardFacts.

Lemma dashboard_agrees_witness :
  exists d, fst (student_dashboard Iso.to_datetime "Alice" 1 2024 Sample.term) = Some d
            /\ present_count d = 2 /\ absent_count d = 0.
Proof.
  destruct (proj2 (dashboard_agrees Iso.to_datetime "Alice" 1 2024 Sample.term eq_refl))
    as (d & D & H & _).
  - discriminate.
  - reflexivity.
  - exists d. split; [exact D|].
    destruct (H (Stat "Alice" 2 0 (Some (Binary64.Float 7036874417766400 (-46)))))
      as (P & A & _).
    + vm_compute. auto.
    + reflexivity.
    + split; [exact P|exact A].
Defined.

(** ** Where an accepted mark shows *)

Lemma todays_attendance_rows (now : clock) (st : store) :
  fst (todays_attendance now st)
  = filter (fun r => cell_is (date_str now) (Date r)) (loaded st).
Proof. unfold todays_attendance, loaded. now destruct (load_data st). Qed.

Lemma filter_fields (p : row cell -> bool) (P : cell * cell * cell * cell -> bool)
      (l : list (row cell)) :
  (forall r, p r = P (four_fields r)) ->
  map four_fields (filter p l) = filter P (map four_fields l).
Proof. intros H. rewrite (filter_ext _ _ H). apply filter_four. Qed.

(** X14: an accepted mark shows at once.  After [mark_attendance]
    returned True at a date that the reader returns unchanged, the table
    of today's attendance is what it was with the new row at its end; and
    when the name is such a text too, so is the history of the student. *)
Theorem accepted_mark_shows (now : clock) (name status : string) (st : store) :
  Text.textual (date_str now) = true ->
  fst (mark_attendance now name status st) = true ->
  let st1 := snd (mark_attendance now name status st) in
  map four_fields (fst (todays_attendance now st1))
  = map four_fields (fst (todays_attendance now st))
    ++ [ (read_cell name, Str (date_str now), read_cell (time_str now), read_cell status) ]
  /\ (Text.textual name = true ->
      map four_fields (rows (fst (get_attendance_history name st1)))
      = map four_fields (rows (fst (get_attendance_history name st)))
        ++ [ (Str name, Str (date_str now), read_cell (time_str now), read_cell status) ]).
Proof.
  intros Td M st1.
  assert (E : map four_fields (loaded st1)
              = map four_fields (loaded st)
                ++ [ (read_cell name, Str (date_str now), read_cell (time_str now),
                      read_cell status) ]).
  { subst st1. now rewrite mark_attendance_loaded, M, (read_cell_textual _ Td). }
  split.
  - rewrite !todays_attendance_rows.
    set (P := fun q : cell * cell * cell * cell => cell_is (date_str now) (snd (fst (fst q)))).
    rewrite (filter_fields _ P (loaded st1)) by reflexivity.
    rewrite (filter_fields _ P (loaded st)) by reflexivity.
    rewrite E, filter_app. unfold P at 2. simpl. now rewrite String.eqb_refl.
  - intros Tn. rewrite (read_cell_textual _ Tn) in E.
    rewrite !get_attendance_history_rows. unfold dated. rewrite !filter_twice.
    set (P := fun q : cell * cell * cell * cell =>
                notna (snd (fst (fst q))) && negb (cell_is "" (snd (fst (fst q))))
                && cell_is name (fst (fst (fst q)))).
    rewrite (filter_fields _ P (loaded st1)) by reflexivity.
    rewrite (filter_fields _ P (loaded st)) by reflexivity.
    rewrite E, filter_app. unfold P at 2. simpl. rewrite String.eqb_refl.
    destruct (String.eqb_spec (date_str now) "") as [X|_]; [|reflexivity].
    now apply textual_nonempty in Td.
Qed.

Lemma accepted_mark_shows_witness :
  map four_fields
      (fst (todays_attendance Sample.morning
              (snd (mark_attendance Sample.morning "Bob" "Present" Sample.term))))
  = map four_fields (fst (todays_attendance Sample.morning Sample.term))
    ++ [ (Str "Bob", Str "2024-01-05", Str "09:00:00", Str "Present") ].
Proof.
  apply (proj1 (accepted_mark_shows Sample.morning "Bob" "Present" Sample.term
                                    eq_refl eq_refl)).
Defined.

(** ** Importing again *)

Section UniqueApp.
Context {A : Type} (eq_dec : forall a b : A, {a = b} + {a <> b}).

Lemma unique_app (l m : list A) :
  unique eq_dec (l ++ m)
  = unique eq_dec l
    ++ filter (fun y => if in_dec eq_dec y l then false else true) (unique eq_dec m).
Proof.
  induction l as [|a t IH]; simpl.
  - symmetry. apply filter_all. reflexivity.
  - f_equal. rewrite IH, filter_app. f_equal.
    rewrite filter_twice. apply filter_ext. intros y.
    destruct (eq_dec a y) as [->|N]; simpl.
    + now rewrite andb_false_r.
    + destruct (in_dec eq_dec y t); reflexivity.
Qed.

Lemma unique_absorbs (l m : list A) :
  (forall x, In x m -> In x l) ->
  unique eq_dec (unique eq_dec l ++ m) = unique eq_dec l.
Proof.
  intros H. rewrite unique_app, (unique_NoDup_id eq_dec _ (unique_NoDup eq_dec l)).
  rewrite <- app_nil_r. f_equal. apply filter_none.
  apply forallb_forall. intros y I. apply unique_In in I. apply H in I.
  destruct (in_dec eq_dec y (unique eq_dec l)) as [_|N]; [reflexivity|].
  exfalso. apply N. now apply unique_In.
Qed.

End UniqueApp.

Lemma realign_same (cols : list string) (r : row cell) :
  NoDup cols -> List.length (others r) = List.length cols -> realign cols cols r = r.
Proof.
  intros N L. destruct r as [a b c d o]. unfold realign. simpl in *. f_equal.
  now apply reindex_same.
Qed.

(** The rows of two frames under one another, when the second frame
    brings no new column. *)
Lemma concat_aligned (a b : frame) :
  NoDup (extra_columns a) ->
  (forall r, In r (rows a) -> List.length (others r) = List.length (extra_columns a)) ->
  (forall c, In c (extra_columns b) -> In c (extra_columns a)) ->
  concat a b
  = Sheet (extra_columns a)
          (rows a ++ map (realign (extra_columns b) (extra_columns a)) (rows b)).
Proof.
  intros N L S. unfold concat.
  assert (F : filter (fun c => negb (mem c (extra_columns a))) (extra_columns b) = []).
  { apply filter_none. apply forallb_forall. intros c I.
    rewrite negb_involutive. apply mem_In. now apply S. }
  rewrite F, app_nil_r. f_equal. f_equal.
  rewrite <- (map_id (rows a)) at 2. apply map_ext_in. intros r I.
  apply realign_same; auto.
Qed.

Lemma concat_columns_NoDup (a b : frame) :
  NoDup (extra_columns a) -> NoDup (extra_columns b) ->
  NoDup (extra_columns (concat a b)).
Proof.
  intros Na Nb. unfold concat. cbn [extra_columns].
  apply NoDup_app; [exact Na|now apply NoDup_filter|].
  intros c I F. apply filter_In in F as [_ F].
  apply negb_true_iff in F. apply mem_In in I. congruence.
Qed.

Lemma rows_concat_length (a b : frame) (r : row cell) :
  In r (rows (concat a b)) ->
  List.length (others r) = List.length (extra_columns (concat a b)).
Proof.
  rewrite rows_concat, in_app_iff, !in_map_iff.
  intros [[q [<- _]]|[q [<- _]]]; unfold realign, reindex; simpl; now rewrite length_map.
Qed.

Lemma frame_of_table_columns_NoDup (t : table) :
  NoDup (header t) -> NoDup (extra_columns (frame_of_table t)).
Proof. intros N. unfold frame_of_table. simpl. now apply NoDup_filter. Qed.

(** X15: importing a file a second time changes nothing.  For an
    uploaded table of text that has the four fields, and a store of
    text, the second import reports success and leaves the store exactly
    as the first import left it. *)
Theorem import_twice (t : table) (st : store) :
  text_table t = true ->
  text_store st = true ->
  incl CSV_FIELDS (header t) ->
  let st1 := snd (import_csv (Parsed t) st) in
  import_csv (Parsed t) st1 = ((true, "Import successful."), st1).
Proof.
  intros Tt Ts H st1.
  apply has_fields_incl in H.
  pose proof (text_table_header t Tt) as Nt.
  assert (Ns : NoDup (extra_columns (fst (load_data st))))
    by (apply text_store_columns in Ts; now apply NoDup_app_remove_l in Ts).
  destruct (import_csv_success t st H) as [_ A]. fold st1 in A.
  destruct (import_csv_success t st1 H) as [R _].
  rewrite (surjective_pairing (import_csv (Parsed t) st1)), R. f_equal.
  rewrite (import_csv_store t st1 H), A. subst st1. rewrite (import_csv_store t st H).
  do 2 f_equal.
  set (orig := fst (load_data st)). set (up := frame_of_table t).
  assert (Nc : NoDup (extra_columns (concat orig up)))
    by (apply concat_columns_NoDup; [exact Ns|now apply frame_of_table_columns_NoDup]).
  rewrite (concat_aligned (drop_duplicates (concat orig up)) up).
  - unfold drop_duplicates. cbn [extra_columns rows]. f_equal.
    apply unique_absorbs. intros r I. rewrite rows_concat. apply in_or_app. now right.
  - exact Nc.
  - intros r I. unfold drop_duplicates in I. cbn [rows] in I. apply unique_In in I.
    now apply rows_concat_length.
  - intros c I. unfold drop_duplicates, concat. cbn [extra_columns].
    destruct (mem c (extra_columns orig)) eqn:M.
    + apply in_or_app. left. now apply mem_In.
    + apply in_or_app. right. apply filter_In. split; [exact I|]. now rewrite M.
Qed.

Lemma import_twice_witness :
  import_csv (Parsed Sample.noted) (snd (import_csv (Parsed Sample.noted) Sample.term))
  = ((true, "Import successful."), snd (import_csv (Parsed Sample.noted) Sample.term)).
Proof.
  apply (import_twice Sample.noted Sample.term eq_refl eq_refl).
  intros c I. apply in_or_app. now left.
Defined.

Lemma unique_twice {A : Type} (eq_dec : forall a b : A, {a = b} + {a <> b}) (l : list A) :
  unique eq_dec (l ++ l) = unique eq_dec l.
Proof.
  rewrite unique_app. rewrite <- app_nil_r. f_equal. apply filter_none.
  apply forallb_forall. intros y I. apply unique_In in I.
  destruct (in_dec eq_dec y l); [reflexivity|contradiction].
Qed.

(** X16: importing the export of a store into that same store removes
    the rows that occur several times and nothing else: the store then
    loads as its former rows with each one kept once, and a store without
    repeated rows loads as before. *)
Theorem import_own_export (st : store) :
  NoDup (CSV_FIELDS ++ extra_columns (fst (load_data st))) ->
  let result := import_csv (Parsed (fst (export_csv st))) st in
  fst result = (true, "Import successful.")
  /\ fst (load_data (snd result)) = drop_duplicates (fst (load_data st))
  /\ (NoDup (loaded st) -> fst (load_data (snd result)) = fst (load_data st)).
Proof.
  intros ND result.
  assert (C : forall r, In r (loaded st) ->
                        canonical_row (List.length (extra_columns (fst (load_data st)))) r)
    by apply loaded_canonical.
  assert (NE : NoDup (extra_columns (fst (load_data st))))
    by now apply NoDup_app_remove_l in ND.
  assert (H : has_fields (fst (export_csv st)) = true).
  { unfold export_csv. destruct (load_data st). reflexivity. }
  assert (F : frame_of_table (fst (export_csv st)) = fst (load_data st)).
  { unfold export_csv, loaded in *. destruct (load_data st) as [df st'].
    cbn [fst] in *. now apply frame_of_table_written. }
  destruct (import_csv_success _ st H) as [R A]. fold result in R, A.
  rewrite F in A.
  assert (D : drop_duplicates (concat (fst (load_data st)) (fst (load_data st)))
              = drop_duplicates (fst (load_data st))).
  { rewrite concat_aligned; auto.
    - unfold drop_duplicates. cbn [extra_columns rows]. f_equal.
      rewrite (map_ext_in _ (fun r => r)), map_id; [apply unique_twice|].
      intros r I. apply realign_same; [exact NE|].
      now destruct (C r I) as (_ & _ & _ & _ & _ & L).
    - intros r I. now destruct (C r I) as (_ & _ & _ & _ & _ & L). }
  rewrite D in A. split; [exact R|]. split; [exact A|].
  intros N. rewrite A. unfold drop_duplicates.
  unfold loaded in N. rewrite (unique_NoDup_id row_eq_dec _ N).
  now destruct (fst (load_data st)).
Qed.

Lemma import_own_export_witness :
  List.length (loaded (snd (import_csv (Parsed (fst (export_csv Sample.term))) Sample.term)))
  = 6.
Proof.
  destruct (import_own_export Sample.term) as (_ & A & _).
  - repeat constructor; simpl; intuition discriminate.
  - unfold loaded. rewrite A. reflexivity.
Defined.

(** ** The columns of the store *)

(** X17: the columns of the store.  Only an import adds a column:
    [registerStudent], [mark_attendance] and [delete_attendance_record]
    leave the columns of any store as they are.  And in every store
    reached from the missing file, by operations whose uploaded files
    bear distinct column names, the four fields and the other columns of
    the store are all distinct. *)
Theorem store_columns :
  (forall o st, is_import o = false -> columns (run o st) = columns st)
  /\ (forall ops, Forall readable ops ->
                  NoDup (CSV_FIELDS ++ columns (run_all ops None))).
Proof.
  split; [apply columns_run|].
  intros ops F.
  assert (G : forall st, NoDup (CSV_FIELDS ++ columns st) ->
                         NoDup (CSV_FIELDS ++ columns (run_all ops st))).
  { induction F as [|o ops R _ IH]; intros st N; simpl; [exact N|].
    apply IH. now apply columns_distinct_run. }
  apply G. apply NoDup_fields_iff. split; [constructor|intros c []].
Qed.

Lemma store_columns_witness :
  columns (run (MarkAttendance Sample.morning "Bob" "Present") Sample.term)
  = columns Sample.term
  /\ NoDup (CSV_FIELDS ++ columns (run_all [ RegisterStudent "Alice";
                                             ImportRows (Parsed Sample.noted) ] None)).
Proof.
  destruct store_columns as [A B]. split.
  - apply A. reflexivity.
  - apply B. repeat constructor; simpl; intuition discriminate.
Defined.

(** ** The export *)

(** X18: what [export_csv] hands out.  The table has the four fields and
    then the other columns of the store as its header, one line for each
    loaded row, each line with one field for each column, and no field in
    it is a missing-value token other than the empty text; the importer
    accepts it; and the store is left as [load_data] leaves it. *)
Theorem export_csv_shape (st : store) :
  let t := fst (export_csv st) in
  header t = CSV_FIELDS ++ columns st
  /\ List.length (lines t) = List.length (loaded st)
  /\ (forall line, In line (lines t) -> List.length line = List.length (header t))
  /\ (forall line s, In line (lines t) -> In s line -> s = "" \/ Text.isna s = false)
  /\ has_fields t = true
  /\ snd (export_csv st) = snd (load_data st).
Proof.
  assert (C : forall r, In r (loaded st) -> canonical_row (List.length (columns st)) r)
    by apply loaded_canonical.
  assert (K : forall r s, In r (loaded st) ->
                Student_Name r = Str s \/ Date r = Str s \/ Time r = Str s
                \/ Status r = Str s \/ In (Str s) (others r) -> Text.isna s = false)
    by apply loaded_cells.
  unfold export_csv, columns, loaded in *. destruct (load_data st) as [df st'].
  cbn [fst snd] in *. unfold table_of_file, to_csv. cbn [header lines extra_columns rows].
  split; [reflexivity|]. split; [now rewrite !length_map|].
  split; [|split; [|split; reflexivity]].
  - intros line I. rewrite map_map in I. apply in_map_iff in I as [r [<- I]].
    destruct (C r I) as (_ & _ & _ & _ & _ & L).
    unfold write_row. cbn [Student_Name Date Time Status others].
    rewrite !length_app, length_map, L. reflexivity.
  - intros line s I Is. rewrite map_map in I. apply in_map_iff in I as [r [<- I]].
    unfold write_row in Is. cbn [Student_Name Date Time Status others app] in Is.
    assert (W : forall c, (forall x, c = Str x -> Text.isna x = false) ->
                          write_cell c = s -> s = "" \/ Text.isna s = false).
    { intros [|x] Hc <-; simpl; [now left|right; now apply Hc]. }
    destruct Is as [Is|[Is|[Is|[Is|Is]]]].
    + apply (W _ (fun x E => K r x I (or_introl E)) Is).
    + apply (W _ (fun x E => K r x I (or_intror (or_introl E))) Is).
    + apply (W _ (fun x E => K r x I (or_intror (or_intror (or_introl E)))) Is).
    + apply (W _ (fun x E => K r x I (or_intror (or_intror (or_intror (or_introl E))))) Is).
    + apply in_map_iff in Is as [c [Ec Ic]]. apply (W c); [|exact Ec].
      intros x E. subst c. apply (K r x I). auto 6.
Qed.

Lemma export_csv_shape_witness :
  Forall (fun line => List.length line = 4) (lines (fst (export_csv Sample.term))).
Proof.
  apply Forall_forall. intros line I.
  now apply (proj1 (proj2 (proj2 (export_csv_shape Sample.term))) line I).
Defined.

(** ** The choices of month and year *)

Lemma insert_permutation (a : option Z) (l : list (option Z)) :
  Permutation (Numbers.insert a l) (a :: l).
Proof.
  induction l as [|b l IH]; simpl; [reflexivity|].
  destruct (Numbers.leb a b); [reflexivity|].
  rewrite IH. apply perm_swap.
Qed.

Lemma sort_permutation (l : list (option Z)) : Permutation (Numbers.sort l) l.
Proof.
  induction l as [|a l IH]; simpl; [reflexivity|].
  rewrite insert_permutation. now constructor.
Qed.

Lemma insert_numbers (a : option Z) (l : list (option Z)) :
  is_number a = true -> forallb is_number l = true -> Sorted number_le l ->
  forallb is_number (Numbers.insert a l) = true /\ Sorted number_le (Numbers.insert a l)
  /\ (forall b, HdRel number_le b l -> number_le b a -> HdRel number_le b (Numbers.insert a l)).
Proof.
  destruct a as [x|]; [intros _|discriminate].
  induction l as [|[y|] l IH]; simpl; intros F S; try discriminate.
  - repeat split; auto.
  - apply Sorted_inv in S as [S H]. destruct (IH F S) as (F' & S' & H').
    destruct (x <=? y)%Z eqn:E.
    + apply Z.leb_le in E. simpl. rewrite F. repeat split; auto.
    + apply Z.leb_gt in E. simpl. rewrite F'. repeat split; auto.
      * constructor; [exact S'|]. apply H'; [exact H|]. simpl. lia.
      * intros b Hb _. inversion Hb; subst. now constructor.
Qed.

Lemma sort_ascending (l : list (option Z)) :
  forallb is_number l = true -> Sorted number_le (Numbers.sort l).
Proof.
  intros F.
  enough (forallb is_number (Numbers.sort l) = true /\ Sorted number_le (Numbers.sort l))
    by tauto.
  induction l as [|a l IH]; simpl in *; [auto|].
  apply andb_true_iff in F as [Fa F]. destruct (IH F) as [F' S'].
  destruct (insert_numbers a _ Fa F' S') as (? & ? & _). auto.
Qed.

Lemma forallb_unique {A : Type} (eq_dec : forall a b : A, {a = b} + {a <> b})
      (p : A -> bool) (l : list A) :
  forallb p l = true -> forallb p (unique eq_dec l) = true.
Proof.
  intros F. apply forallb_forall. intros x I. apply unique_In in I.
  now apply (proj1 (forallb_forall p l) F).
Qed.

Lemma forallb_parsed (f : timestamp -> Z) (dates : list (option timestamp)) :
  forallb is_parsed dates = true -> forallb is_number (map (option_map f) dates) = true.
Proof.
  induction dates as [|[t|] dates IH]; simpl; auto.
Qed.

Lemma In_parsed (f : timestamp -> Z) (dates : list (option timestamp)) (x : Z) :
  In (Some x) (map (option_map f) dates) <-> exists t, In (Some t) dates /\ f t = x.
Proof.
  rewrite in_map_iff. split.
  - intros [[t|] [E I]]; simpl in E; [|discriminate]. exists t. split; congruence.
  - intros [t [I E]]. exists (Some t). simpl. split; congruence.
Qed.

Lemma In_unparsed (f : timestamp -> Z) (dates : list (option timestamp)) :
  In None (map (option_map f) dates) <-> In None dates.
Proof.
  rewrite in_map_iff. split.
  - intros [[t|] [E I]]; simpl in E; [discriminate|exact I].
  - intros I. now exists None.
Qed.

Lemma month_number_range (m : month_name) : (1 <= month_number m <= 12)%Z.
Proof. destruct m; simpl; lia. Qed.

Section Options.

Variable to_datetime : list cell -> list (option timestamp).
Variable py_sorted : list (option Z) -> list (option Z).

Hypothesis sorted_rearranges : forall l, Permutation (py_sorted l) l.
Hypothesis sorted_numbers : forall l, forallb is_number l = true -> Sorted number_le (py_sorted l).

(** X19: the choices that [get_month_year_options] offers.  With [dates]
    the parsed dates of the dated rows of the store: no month and no year
    is offered twice; a month is offered exactly when it is the month of a
    parsed date, and so lies between 1 and 12, and a year exactly when it
    is the year of a parsed date; a NaN is among the months, and among
    the years, exactly when some date of a dated row was not parsed; and
    when every date was parsed the months and the years are ascending.
    Of [sorted] only what its two hypotheses say is used. *)
Theorem month_year_options (st : store) :
  let dates := to_datetime (map Date (dated (loaded st))) in
  let months := fst (fst (get_month_year_options to_datetime py_sorted st)) in
  let years := snd (fst (get_month_year_options to_datetime py_sorted st)) in
  NoDup months /\ NoDup years
  /\ (forall m, In (Some m) months
                <-> exists t, In (Some t) dates /\ month_number (dt_month t) = m)
  /\ (forall m, In (Some m) months -> (1 <= m <= 12)%Z)
  /\ (forall y, In (Some y) years <-> exists t, In (Some t) dates /\ dt_year t = y)
  /\ (In None months <-> In None dates)
  /\ (In None years <-> In None dates)
  /\ (forallb is_parsed dates = true
      -> Sorted number_le months /\ Sorted number_le years)
  /\ snd (get_month_year_options to_datetime py_sorted st) = snd (load_data st).
Proof.
  unfold get_month_year_options, loaded. destruct (load_data st) as [df st'].
  cbn [fst snd]. set (dates := to_datetime (map Date (dated (rows df)))).
  assert (P : forall l x, In x (py_sorted (unique option_Z_eq_dec l)) <-> In x l).
  { intros l x. rewrite <- (unique_In option_Z_eq_dec x l). split.
    - apply Permutation_in, sorted_rearranges.
    - apply Permutation_in. symmetry. apply sorted_rearranges. }
  assert (N : forall l, NoDup (py_sorted (unique option_Z_eq_dec l))).
  { intros l. apply (Permutation_NoDup (l := unique option_Z_eq_dec l)).
    - symmetry. apply sorted_rearranges.
    - apply unique_NoDup. }
  assert (M : forall m, In (Some m)
                (py_sorted (unique option_Z_eq_dec
                   (map (option_map (fun ts => month_number (dt_month ts))) dates)))
              <-> exists t, In (Some t) dates /\ month_number (dt_month t) = m).
  { intros m. rewrite P. apply In_parsed. }
  split; [apply N|]. split; [apply N|]. split; [exact M|].
  split. { intros m I. apply M in I as [t [_ <-]]. apply month_number_range. }
  split. { intros y. rewrite P. apply In_parsed. }
  split. { rewrite P. apply In_unparsed. }
  split. { rewrite P. apply In_unparsed. }
  split; [|reflexivity].
  intros F. split; apply sorted_numbers, forallb_unique, forallb_parsed, F.
Qed.

End Options.

Lemma month_year_options_witness :
  fst (get_month_year_options Iso.to_datetime Numbers.sort Sample.term)
  = ([Some 1%Z; Some 2%Z], [Some 2024%Z])
  /\ Sorted number_le
       (fst (fst (get_month_year_options Iso.to_datetime Numbers.sort Sample.term))).
Proof.
  split; [reflexivity|].
  refine (proj1 (proj1 (proj2 (proj2 (proj2 (proj2 (proj2 (proj2 (proj2
            (month_year_options Iso.to_datetime Numbers.sort
               sort_permutation sort_ascending Sample.term)))))))) _)).
  reflexivity.
Defined.

(** ** The list of students *)

Lemma names_witness (s : string) (l : list (row cell)) :
  In (Str s) (names l) <-> exists r, In r l /\ Student_Name r = Str s.
Proof.
  unfold names. rewrite in_map_iff. split; intros [r [A B]]; exists r; tauto.
Qed.

Lemma names_kept_by_append (s : string) (l l' : list (row cell))
      (more : list (cell * cell * cell * cell)) :
  map four_fields l' = map four_fields l ++ more ->
  In (Str s) (names l) -> In (Str s) (names l').
Proof.
  intros E I. rewrite names_four in *. rewrite E, map_app. apply in_or_app. now left.
Qed.

Lemma names_kept_by_import (s : string) (t : table) (st : store) :
  In (Str s) (names (loaded st)) ->
  In (Str s) (names (loaded (snd (import_csv (Parsed t) st)))).
Proof.
  intros I. destruct (has_fields t) eqn:H;
    [|now rewrite (import_csv_mismatch t st H)].
  destruct (import_csv_success t st H) as [_ A]. unfold loaded at 1. rewrite A.
  unfold drop_duplicates. cbn [rows].
  apply names_witness in I as [r [I E]]. apply names_witness.
  exists (realign (extra_columns (fst (load_data st)))
                  (extra_columns (concat (fst (load_data st)) (frame_of_table t))) r).
  split; [|exact E].
  apply unique_In. rewrite rows_concat. apply in_or_app. left. now apply in_map.
Qed.

(** X20: the list of students.  For every store of text [get_students]
    gives a list without repetition, in ascending order, of exactly the
    texts that are the name of a loaded row and are not blank, and leaves
    the store as [load_data] leaves it.  A student in the list of such a
    store stays in the list under every operation other than a
    deletion. *)
Theorem get_students_listing :
  (forall st,
     text_store st = true ->
     let students := fst (get_students st) in
     NoDup students /\ Sorted ascending students
     /\ (forall s, In s students
                   <-> Text.nonblank s = true
                       /\ exists r, In r (loaded st) /\ Student_Name r = Str s)
     /\ snd (get_students st) = snd (load_data st))
  /\ (forall o st s,
        text_store st = true ->
        (forall n d t x, o <> DeleteRecord n d t x) ->
        In s (fst (get_students st)) -> In s (fst (get_students (run o st)))).
Proof.
  split.
  - intros st _ students. split; [apply get_students_NoDup|].
    split; [apply get_students_Sorted|]. split; [|apply get_students_store].
    intros s. unfold students. rewrite get_students_In, names_witness. tauto.
  - intros o st s _ ND I. apply get_students_In in I as [I B].
    apply get_students_In. split; [|exact B].
    destruct o as [name|now name status|[t|e]|n d t x]; simpl.
    + unfold registerStudent. destruct (validate_student_name name); [|exact I].
      pose proof (add_student_loaded (Text.strip name) st) as A.
      destruct (add_student (Text.strip name) st) as [ok st1]. cbn [fst snd] in *.
      exact (names_kept_by_append s _ _ _ A I).
    + exact (names_kept_by_append s _ _ _ (mark_attendance_loaded now name status st) I).
    + now apply names_kept_by_import.
    + exact I.
    + now destruct (ND n d t x).
Qed.

Lemma get_students_listing_witness :
  In "Bob" (fst (get_students Sample.term))
  /\ In "Bob" (fst (get_students (run (ImportRows (Parsed Sample.noted)) Sample.term))).
Proof.
  assert (I : In "Bob" (fst (get_students Sample.term))) by (vm_compute; auto).
  split; [exact I|].
  apply (proj2 get_students_listing (ImportRows (Parsed Sample.noted)) Sample.term "Bob");
    [reflexivity|discriminate|exact I].
Defined.
